(** * gankenkun: gait controller (WalkingManager) and leg IK (Kinematics)

    A shallow embedding of
      - src/gankenkun/walking/node/walking_manager.cpp
      - src/gankenkun/walking/kinematics/kinematics.cpp
      - include/gankenkun/walking/node/walking_manager.hpp

    Conventions.
    - A C++ [double] is an exact rational ([Q]); rounding error is outside
      the model.  Comparisons are the boolean ones the code branches on.
      A quotient of two doubles is a rational too, except the one the
      solver hands to [keisan::arccos], whose divisor can be 0: that one is
      an [xdouble], a finite number, an infinity or NaN.
    - A member function of a mutable object is a function from the object
      to an [outcome]: the object after a normal return ([Done]), the object
      as the throw left it ([Thrown]), or [Undefined] for an access outside
      a container.
    - Declarations the sources include but do not contain (keisan's angles,
      tachimawari's joint identifiers, the footstep planner and the
      trajectory generator) are interfaces: type classes whose fields carry
      the names the sources use. *)

From Stdlib Require Import QArith Qround Qabs ZArith List String Bool Lia Lqa.
From coqutil Require Import Datatypes.RecordSettersUsingExistingGetters.
Import ListNotations.

Open Scope string_scope.
Open Scope Q_scope.

(** ** Doubles *)

(** A double that need not be a finite number. *)
Inductive xdouble : Type :=
| Finite (q : Q)
| PlusInf
| MinusInf
| NaN.

Module Double.

(** [a < b] and [a <= b] as the code tests them. *)
Definition ltb (a b : Q) : bool := negb (Qle_bool b a).
Definition leb (a b : Q) : bool := Qle_bool a b.
Definition eqb (a b : Q) : bool := Qeq_bool a b.

(** [round] of <cmath>: to the nearest integer, halves away from zero. *)
Definition round (x : Q) : Q :=
  if Qle_bool 0 x then inject_Z (Qfloor (x + (1 # 2)))
  else inject_Z (Qceiling (x - (1 # 2))).

(** [std::max(a, b)] is [(a < b) ? b : a]; [std::min(a, b)] is
    [(b < a) ? b : a]. *)
Definition max (a b : Q) : Q := if ltb a b then b else a.
Definition min (a b : Q) : Q := if ltb b a then b else a.

(** [a / b] as IEEE 754 has it on two finite doubles: a quotient by 0 is
    an infinity of the sign of [a], and 0 / 0 is NaN.  A zero is taken for
    +0.0. *)
Definition div (a b : Q) : xdouble :=
  if eqb b 0 then
    if eqb a 0 then NaN else if ltb 0 a then PlusInf else MinusInf
  else Finite (a / b).

End Double.

(** ** Outcomes of member functions *)

Inductive outcome (S : Type) : Type :=
| Done (s : S)                       (* normal return, object is [s] *)
| Thrown (what : string) (s : S)     (* std::exception, object left as [s] *)
| Undefined.                         (* read outside a container *)

Arguments Done {S} s.
Arguments Thrown {S} what s.
Arguments Undefined {S}.

Definition is_done {S : Type} (o : outcome S) : bool :=
match o with
| Done _ => true
| _ => false
end.

(** ** Interfaces of the code declared outside the sources *)

(** keisan's [Angle<double>] with the operations the sources call.  The
    trigonometric functions take and return exact values. *)
Class Keisan : Type := {
  Angle : Type;
  make_degree : Q -> Angle;              (* also the literal [0.0_deg] *)
  make_radian : Q -> Angle;
  degree : Angle -> Q;
  radian : Angle -> Q;
  angle_add : Angle -> Angle -> Angle;
  angle_sub : Angle -> Angle -> Angle;
  angle_neg : Angle -> Angle;
  angle_div : Angle -> Q -> Angle;
  angle_cos : Angle -> Q;
  angle_sin : Angle -> Q;
  signed_arctan : Q -> Q -> Angle;       (* atan2 *)
  arccos : xdouble -> Angle;             (* meaningful on [-1, 1] *)
  c_sqrt : Q -> Q;                       (* std::sqrt, meaningful on [0, oo) *)
  c_hypot : Q -> Q -> Q                  (* std::hypot *)
}.

(** tachimawari's [JointId]: identifiers are [uint8_t]; the sources name
    sixteen of them and iterate over [JointId::list]. *)
Class Tachimawari : Type := {
  JointId_list : list N;
  NECK_YAW : N;
  NECK_PITCH : N;
  LEFT_HIP_YAW : N;
  LEFT_HIP_ROLL : N;
  LEFT_HIP_PITCH : N;
  LEFT_UPPER_KNEE : N;
  LEFT_LOWER_KNEE : N;
  LEFT_ANKLE_PITCH : N;
  LEFT_ANKLE_ROLL : N;
  RIGHT_HIP_YAW : N;
  RIGHT_HIP_ROLL : N;
  RIGHT_HIP_PITCH : N;
  RIGHT_UPPER_KNEE : N;
  RIGHT_LOWER_KNEE : N;
  RIGHT_ANKLE_PITCH : N;
  RIGHT_ANKLE_ROLL : N
}.

(** ** Plain data *)

Record Point2 : Type := { x : Q; y : Q }.
Record Point3 : Type := { x3 : Q; y3 : Q; z3 : Q }.

(** [keisan::Matrix<1, 3>]: one row (x, y, yaw in radians). *)
Record Matrix13 : Type := { m0 : Q; m1 : Q; m2 : Q }.

Module Matrix13.
Definition zero : Matrix13 := {| m0 := 0; m1 := 0; m2 := 0 |}.
Definition add (a b : Matrix13) : Matrix13 :=
  {| m0 := m0 a + m0 b; m1 := m1 a + m1 b; m2 := m2 a + m2 b |}.
Definition sub (a b : Matrix13) : Matrix13 :=
  {| m0 := m0 a - m0 b; m1 := m1 a - m1 b; m2 := m2 a - m2 b |}.
Definition div (a : Matrix13) (d : Q) : Matrix13 :=
  {| m0 := m0 a / d; m1 := m1 a / d; m2 := m2 a / d |}.
End Matrix13.

(** [FootStepPlanner]'s integer constants. *)
Inductive Status : Type := START | WALKING.
Inductive Support : Type := LEFT_FOOT | RIGHT_FOOT | BOTH_FEET.

Definition Status_eqb (a b : Status) : bool :=
  match a, b with START, START | WALKING, WALKING => true | _, _ => false end.

Definition Support_eqb (a b : Support) : bool :=
  match a, b with
  | LEFT_FOOT, LEFT_FOOT | RIGHT_FOOT, RIGHT_FOOT | BOTH_FEET, BOTH_FEET => true
  | _, _ => false
  end.

(** [tachimawari::joint::Joint]: an identifier and a position in degrees. *)
Record Joint : Type := { get_id : N; get_position : Q }.

Definition set_position (j : Joint) (p : Q) : Joint :=
  {| get_id := get_id j; get_position := p |}.

(** keisan's [clamp(value, min, max)], declared outside the sources: the
    value brought back between the two bounds. *)
Definition clamp (value lo hi : Q) : Q := Double.min (Double.max value lo) hi.

(** The same on a value that need not be finite.  Every comparison with
    NaN is false, so [std::max(value, lo)] and [std::min(., hi)] return
    their first argument, the NaN; an infinity is brought back to the bound
    on its side. *)
Definition xclamp (value : xdouble) (lo hi : Q) : xdouble :=
match value with
| Finite q => Finite (clamp q lo hi)
| PlusInf => Finite hi
| MinusInf => Finite (Double.min lo hi)
| NaN => NaN
end.

(** ** JSON documents and jitsuyo's [assign_val] *)

#[local] Set Warnings "-register-all".

Inductive json : Type :=
| JNull
| JBool (b : bool)
| JNumber (q : Q)
| JString (s : string)
| JArray (items : list json)
| JObject (members : list (string * json)).

Module Json.

(** [json.find(key)]: the first member of that name of an object, nothing
    on any other value. *)
Fixpoint assoc (key : string) (members : list (string * json)) : option json :=
match members with
| [] => None
| (k, v) :: rest => if String.eqb k key then Some v else assoc key rest
end.

Definition find (j : json) (key : string) : option json :=
match j with
| JObject members => assoc key members
| _ => None
end.

(** Modelled from the spec: [jitsuyo::assign_val] (jitsuyo/config.hpp, not
    among the sources) reads a required field into a variable.  It answers
    [true] and stores the value when the key is there with the right shape,
    and answers [false], the variable left as it was, when the key is
    absent, null or of another shape.  A [double] wants a number, a
    section wants any value that is not null. *)
Definition assign_double (j : json) (key : string) (val : Q) : bool * Q :=
match find j key with
| Some (JNumber q) => (true, q)
| _ => (false, val)
end.

Definition assign_section (j : json) (key : string) (val : json) : bool * json :=
match find j key with
| Some JNull | None => (false, val)
| Some v => (true, v)
end.

(** The section [assign_section] finds under a name, if any. *)
Definition section_of (j : json) (name : string) : option json :=
match find j name with
| Some JNull | None => None
| Some v => Some v
end.

(** What a [double] member holds after [assign_val] on [key]. *)
Definition read_double (j : json) (key : string) (val : Q) : Q :=
snd (assign_double j key val).

(** A field that [assign_double] accepts. *)
Definition has_number (j : json) (key : string) : bool :=
match find j key with
| Some (JNumber _) => true
| _ => false
end.

(** A group of a configuration document is in order when the section is
    there and each of its fields is a number. *)
Definition group_ok (data : json) (name : string) (keys : list string) : bool :=
match section_of data name with
| Some section => forallb (has_number section) keys
| None => false
end.

(** What a member of the group [name] holds once the document was read:
    the number under [key] when the section is there and the field is a
    number, what it held before otherwise. *)
Definition configured (data : json) (name key : string) (val : Q) : Q :=
match section_of data name with
| Some section => read_double section key val
| None => val
end.

(** walking.json, as section 6 of the specification lists it. *)
Definition walking_config_ok (walking_data : json) : bool :=
group_ok walking_data "timing"
  ["dsp_duration"; "plan_period"; "com_period"; "step_frames"]
&& group_ok walking_data "posture" ["com_height"; "foot_height"; "feet_lateral"]
&& group_ok walking_data "offset" ["foot_y_offset"]
&& group_ok walking_data "stride" ["max_x"; "max_y"; "max_a"].

(** kinematic.json. *)
Definition kinematic_config_ok (kinematic_data : json) : bool :=
group_ok kinematic_data "leg"
  ["ankle_length"; "calf_length"; "knee_length"; "thigh_length"]
&& group_ok kinematic_data "offset" ["x"; "y"].

End Json.

Section Model.

Context {K : Keisan} {T : Tachimawari}.

Record FootStep : Type := {
  position : Point2;
  rotation : Angle;
  time : Q;
  support_foot : Support
}.

(** A sample of the CoM trajectory; the controller reads its position. *)
Record COM : Type := { com_position : Point2 }.

(** [Kinematics::Foot]. *)
Record Foot : Type := { foot_position : Point3; yaw : Angle }.

(** The members of [Kinematics] (kinematics.cpp); [angles] is indexed by
    joint identifier. *)
Record Kinematics : Type := {
  ankle_length : Q;
  calf_length : Q;
  knee_length : Q;
  thigh_length : Q;
  x_offset : Q;
  y_offset : Q;
  angles : N -> Angle
}.

(** [angles[id] = a]. *)
Definition write (id : N) (a : Angle) (table : N -> Angle) : N -> Angle :=
fun i => if N.eqb i id then a else table i.

(** kinematics.cpp, lines 41-51. *)
Definition reset_angles (k : Kinematics) : Kinematics :=
let k := k<|angles := fun _ => make_degree 0|> in
let k := k<|angles ::= write NECK_YAW (make_degree 0)|> in
k<|angles ::= write NECK_PITCH (make_degree 0)|>.

(** kinematics.cpp, lines 30-39. *)
Definition Kinematics_new : Kinematics :=
reset_angles
  {| ankle_length := 0; calf_length := 0; knee_length := 0; thigh_length := 0;
     x_offset := 0; y_offset := 0; angles := fun _ => make_degree 0 |}.

Definition get_angles (k : Kinematics) : N -> Angle := angles k.

(** The statement [valid_section &= jitsuyo::assign_val(section, key, member)]
    on an object [o] whose member is read by [get] and written by [set]. *)
Definition assign_member {Obj : Type} (section : json) (key : string)
  (get : Obj -> Q) (set : Q -> Obj -> Obj) (st : bool * Obj) : bool * Obj :=
let '(valid_section, o) := st in
let '(ok, v) := Json.assign_double section key (get o) in
(valid_section && ok, set v o).

(** A section of a document: [assign_val(data, name, section)], then the
    fields [body] reads with [valid_section] starting at [true], then
    [valid_config = false] when the section is absent or a field failed. *)
Definition assign_group {Obj : Type} (data : json) (name : string)
  (body : json -> bool * Obj -> bool * Obj) (st : bool * Obj) : bool * Obj :=
let '(valid_config, o) := st in
let '(found, section) := Json.assign_section data name JNull in
if found then
  let '(valid_section, o) := body section (true, o) in
  (if negb valid_section then false else valid_config, o)
else (false, o).

(** kinematics.cpp, lines 53-88.  The two sections are read field by field
    into the members; [valid_config] is computed and the function returns. *)
Definition Kinematics_set_config (kinematic_data : json) (k : Kinematics)
  : outcome Kinematics :=
let st := (true, k) in
let st :=
  assign_group kinematic_data "leg" (fun leg_section st =>
    let st := assign_member leg_section "ankle_length"
                ankle_length (fun v k => k<|ankle_length := v|>) st in
    let st := assign_member leg_section "calf_length"
                calf_length (fun v k => k<|calf_length := v|>) st in
    let st := assign_member leg_section "knee_length"
                knee_length (fun v k => k<|knee_length := v|>) st in
    assign_member leg_section "thigh_length"
      thigh_length (fun v k => k<|thigh_length := v|>) st) st in
let st :=
  assign_group kinematic_data "offset" (fun offset_section st =>
    let st := assign_member offset_section "x"
                x_offset (fun v k => k<|x_offset := v|>) st in
    assign_member offset_section "y"
      y_offset (fun v k => k<|y_offset := v|>) st) st in
let '(valid_config, k) := st in
Done k.

(** The locals of one leg of [solve_inverse_kinematics] that the writes
    and the two library calls with a domain use. *)
Record Leg : Type := {
  leg_x2 : Q;
  leg_z3 : Q;
  leg_length : Q;
  sqrt_argument : Q;            (* the argument of [std::sqrt] *)
  arccos_argument : xdouble;    (* the argument of [keisan::arccos] *)
  hip_roll : Angle;
  hip_pitch : Angle;
  knee_pitch : Angle
}.

(** kinematics.cpp, lines 94-117. *)
Definition left_leg (k : Kinematics) (left_foot : Foot) : Leg :=
let left_x := x3 (foot_position left_foot) - x_offset k in
let left_y := y3 (foot_position left_foot) - y_offset k in
let left_z :=
  ankle_length k + calf_length k + knee_length k + thigh_length k
  - z3 (foot_position left_foot) in
let left_x2 :=
  left_x * angle_cos (yaw left_foot) + left_y * angle_sin (yaw left_foot) in
let left_y2 :=
  - left_x * angle_sin (yaw left_foot) + left_y * angle_cos (yaw left_foot) in
let left_z2 := left_z - ankle_length k in
(* Hip roll angle *)
let hip_roll := signed_arctan left_y2 left_z2 in
let left2 := left_y2 * left_y2 + left_z2 * left_z2 in
let left_z3 := c_sqrt (Double.max 0 (left2 - left_x2 * left_x2)) - knee_length k in
let pitch := signed_arctan left_x2 left_z3 in
let length := c_hypot left_x2 left_z3 in
let knee_disp :=
  arccos (xclamp (Double.div length (2 * thigh_length k)) (-1) 1) in
(* Hip pitch angle *)
let hip_pitch := angle_sub (angle_neg pitch) knee_disp in
(* Knee pitch angle *)
let knee_pitch := angle_add (angle_neg pitch) knee_disp in
{| leg_x2 := left_x2;
   leg_z3 := left_z3;
   leg_length := length;
   sqrt_argument := Double.max 0 (left2 - left_x2 * left_x2);
   arccos_argument := xclamp (Double.div length (2 * thigh_length k)) (-1) 1;
   hip_roll := hip_roll;
   hip_pitch := hip_pitch;
   knee_pitch := knee_pitch |}.

(** kinematics.cpp, lines 135-157. *)
Definition right_leg (k : Kinematics) (right_foot : Foot) : Leg :=
let right_x := x3 (foot_position right_foot) - x_offset k in
let right_y := y3 (foot_position right_foot) + y_offset k in
let right_z :=
  ankle_length k + calf_length k + knee_length k + thigh_length k
  - z3 (foot_position right_foot) in
let right_x2 :=
  right_x * angle_cos (yaw right_foot) + right_y * angle_sin (yaw right_foot) in
let right_y2 :=
  - right_x * angle_sin (yaw right_foot) + right_y * angle_cos (yaw right_foot) in
let right_z2 := right_z - ankle_length k in
(* Hip roll angle *)
let hip_roll := signed_arctan right_y2 right_z2 in
let right2 := right_y2 * right_y2 + right_z2 * right_z2 in
let right_z3 :=
  c_sqrt (Double.max 0 (right2 - right_x2 * right_x2)) - knee_length k in
let pitch := signed_arctan right_x2 right_z3 in
let length := c_hypot right_x2 right_z3 in
let knee_disp :=
  arccos (xclamp (Double.div length (2 * thigh_length k)) (-1) 1) in
(* Hip pitch angle *)
let hip_pitch := angle_sub (angle_neg pitch) knee_disp in
(* Knee pitch angle *)
let knee_pitch := angle_add (angle_neg pitch) knee_disp in
{| leg_x2 := right_x2;
   leg_z3 := right_z3;
   leg_length := length;
   sqrt_argument := Double.max 0 (right2 - right_x2 * right_x2);
   arccos_argument := xclamp (Double.div length (2 * thigh_length k)) (-1) 1;
   hip_roll := hip_roll;
   hip_pitch := hip_pitch;
   knee_pitch := knee_pitch |}.

(** kinematics.cpp, lines 90-174.  Nothing in the function throws:
    [std::sqrt] and [std::hypot] return a value on every argument, and
    keisan's functions are taken to.  The left leg is solved and its seven
    entries of [angles] written before the right leg is looked at. *)
Definition solve_inverse_kinematics (k : Kinematics) (left_foot right_foot : Foot)
  : outcome Kinematics :=
let left := left_leg k left_foot in
let k := k<|angles ::= write LEFT_HIP_YAW (yaw left_foot)|> in
let k := k<|angles ::= write LEFT_HIP_ROLL (hip_roll left)|> in
let k := k<|angles ::= write LEFT_HIP_PITCH (angle_neg (hip_pitch left))|> in
let k := k<|angles ::= write LEFT_UPPER_KNEE (hip_pitch left)|> in
let k := k<|angles ::= write LEFT_LOWER_KNEE (angle_neg (knee_pitch left))|> in
let k := k<|angles ::= write LEFT_ANKLE_PITCH (make_degree 0)|> in
let k := k<|angles ::= write LEFT_ANKLE_ROLL (angle_neg (hip_roll left))|> in
let right := right_leg k right_foot in
let k := k<|angles ::= write RIGHT_HIP_YAW (yaw right_foot)|> in
let k := k<|angles ::= write RIGHT_HIP_ROLL (hip_roll right)|> in
let k := k<|angles ::= write RIGHT_HIP_PITCH (hip_pitch right)|> in
let k := k<|angles ::= write RIGHT_UPPER_KNEE (angle_neg (hip_pitch right))|> in
let k := k<|angles ::= write RIGHT_LOWER_KNEE (angle_neg (knee_pitch right))|> in
let k := k<|angles ::= write RIGHT_ANKLE_PITCH (make_degree 0)|> in
let k := k<|angles ::= write RIGHT_ANKLE_ROLL (angle_neg (hip_roll right))|> in
Done k.

(** The entries of [angles] the solver writes. *)
Definition leg_joints : list N :=
[ LEFT_HIP_YAW; LEFT_HIP_ROLL; LEFT_HIP_PITCH; LEFT_UPPER_KNEE;
  LEFT_LOWER_KNEE; LEFT_ANKLE_PITCH; LEFT_ANKLE_ROLL;
  RIGHT_HIP_YAW; RIGHT_HIP_ROLL; RIGHT_HIP_PITCH; RIGHT_UPPER_KNEE;
  RIGHT_LOWER_KNEE; RIGHT_ANKLE_PITCH; RIGHT_ANKLE_ROLL ].

(** ** The collaborators of the gait controller

    [FootStepPlanner] and [LIPM] are declared outside the sources.  The
    controller reads and pops the planner's public queue [foot_steps] and
    the generator's trajectory; what else the two objects hold is a type
    parameter, and their member functions are an interface. *)

Class Internals : Type := { PlannerState : Type; LipmState : Type }.

Context {I : Internals}.

Record FootStepPlanner : Type := {
  foot_steps : list FootStep;
  planner_state : PlannerState
}.

Record LIPM : Type := {
  com_trajectory : list COM;
  lipm_state : LipmState
}.

Class Collaborators : Type := {
  FootStepPlanner_new : FootStepPlanner;
  LIPM_new : LIPM;
  (* set_parameters(max_stride, max_rotation, plan_period, foot_y_offset) *)
  planner_set_parameters :
    FootStepPlanner -> Point2 -> Angle -> Q -> Q -> FootStepPlanner;
  (* plan(goal_position, goal_orientation, current_position,
          current_orientation, next_support, status) *)
  plan :
    FootStepPlanner -> Point2 -> Angle -> Point2 -> Angle -> Support -> Status ->
    FootStepPlanner;
  (* set_parameters(com_height, time_step, com_period) *)
  lipm_set_parameters : LIPM -> Q -> Q -> Q -> LIPM;
  (* update(time, foot_steps) *)
  lipm_update : LIPM -> Q -> list FootStep -> LIPM
}.

Context {C : Collaborators}.

Definition get_com_trajectory (l : LIPM) : list COM := com_trajectory l.

(** Modelled from the spec: [LIPM::pop_front] (not among the sources) pops
    one CoM sample, destructively and first in first out; on an empty
    trajectory there is nothing to return. *)
Definition lipm_pop_front (l : LIPM) : option (COM * LIPM) :=
match com_trajectory l with
| [] => None
| com :: rest => Some (com, l<|com_trajectory := rest|>)
end.

(** [foot_steps.pop_front()]. *)
Definition pop_front (p : FootStepPlanner) : FootStepPlanner :=
p<|foot_steps ::= @tl FootStep|>.

(** ** The gait controller: walking_manager.hpp, lines 52-97 *)

Record WalkingManager : Type := {
  kinematics : Kinematics;
  lipm : LIPM;
  foot_step_planner : FootStepPlanner;
  status : Status;
  initialized : bool;
  next_support : Support;
  walk_rotation : Angle;
  (* Timing parameters *)
  time_step : Q;
  dsp_duration : Q;
  plan_period : Q;
  step_frames : Q;
  com_period : Q;
  (* Posture parameters *)
  com_height : Q;
  foot_height : Q;
  feet_lateral : Q;
  (* Offset parameters *)
  foot_y_offset : Q;
  (* Maximum stride parameters *)
  max_stride : Point2;
  max_rotation : Angle;
  left_up : Q;
  right_up : Q;
  joints : list Joint;
  left_offset : Matrix13;
  left_offset_delta : Matrix13;
  left_foot_target : Matrix13;
  right_offset : Matrix13;
  right_offset_delta : Matrix13;
  right_foot_target : Matrix13;
  initial_left_foot : Point3;
  initial_right_foot : Point3
}.

(** walking_manager.cpp, lines 32-55.  [walk_rotation] and [com_period] have
    no initialiser: their first values are arguments. *)
Definition WalkingManager_new (walk_rotation0 : Angle) (com_period0 : Q)
  : WalkingManager :=
{| kinematics := Kinematics_new;
   lipm := LIPM_new;
   foot_step_planner := FootStepPlanner_new;
   status := START;
   initialized := false;
   next_support := RIGHT_FOOT;
   walk_rotation := walk_rotation0;
   time_step := 0.01;
   dsp_duration := 0;
   plan_period := 0;
   step_frames := 0;
   com_period := com_period0;
   com_height := 0;
   foot_height := 0;
   feet_lateral := 0;
   foot_y_offset := 0;
   max_stride := {| x := 0; y := 0 |};
   max_rotation := make_degree 0;
   left_up := 0;
   right_up := 0;
   joints := map (fun id => {| get_id := id; get_position := 0 |}) JointId_list;
   left_offset := Matrix13.zero;
   left_offset_delta := Matrix13.zero;
   left_foot_target := Matrix13.zero;
   right_offset := Matrix13.zero;
   right_offset_delta := Matrix13.zero;
   right_foot_target := Matrix13.zero;
   initial_left_foot :=
     {| x3 := -0.04360000000000016; y3 := 0.0495; z3 := 0.011499999999999982 |};
   initial_right_foot :=
     {| x3 := -0.04360000000000016; y3 := -0.0495; z3 := 0.011499999999999982 |}
|}.

(** walking_manager.cpp, lines 73-154.  [max_rotation_double] is the local
    of that name, declared without a value: what it holds before the read
    is an argument. *)
Definition set_config (max_rotation_double : Q)
  (walking_data kinematic_data : json) (wm : WalkingManager)
  : outcome WalkingManager :=
let st := (true, wm) in
let st :=
  assign_group walking_data "timing" (fun timing_section st =>
    let st := assign_member timing_section "dsp_duration"
                dsp_duration (fun v wm => wm<|dsp_duration := v|>) st in
    let st := assign_member timing_section "plan_period"
                plan_period (fun v wm => wm<|plan_period := v|>) st in
    let st := assign_member timing_section "com_period"
                com_period (fun v wm => wm<|com_period := v|>) st in
    assign_member timing_section "step_frames"
      step_frames (fun v wm => wm<|step_frames := v|>) st) st in
let st :=
  assign_group walking_data "posture" (fun posture_section st =>
    let st := assign_member posture_section "com_height"
                com_height (fun v wm => wm<|com_height := v|>) st in
    let st := assign_member posture_section "foot_height"
                foot_height (fun v wm => wm<|foot_height := v|>) st in
    assign_member posture_section "feet_lateral"
      feet_lateral (fun v wm => wm<|feet_lateral := v|>) st) st in
let st :=
  assign_group walking_data "offset" (fun offset_section st =>
    assign_member offset_section "foot_y_offset"
      foot_y_offset (fun v wm => wm<|foot_y_offset := v|>) st) st in
let st :=
  assign_group walking_data "stride" (fun stride_section st =>
    let st := assign_member stride_section "max_x"
                (fun wm => x (max_stride wm))
                (fun v wm => wm<|max_stride := {| x := v; y := y (max_stride wm) |}|>)
                st in
    let st := assign_member stride_section "max_y"
                (fun wm => y (max_stride wm))
                (fun v wm => wm<|max_stride := {| x := x (max_stride wm); y := v |}|>)
                st in
    let '(valid_section, wm) := st in
    let '(ok, max_rotation_double) :=
      Json.assign_double stride_section "max_a" max_rotation_double in
    let valid_section := valid_section && ok in
    let wm := wm<|max_rotation := make_degree max_rotation_double|> in
    (valid_section, wm)) st in
let '(valid_config, wm) := st in
if negb valid_config then
  Thrown "Failed to load config file `walking.json`" wm
else
  let wm := wm<|foot_step_planner :=
                  planner_set_parameters (foot_step_planner wm) (max_stride wm)
                    (max_rotation wm) (plan_period wm) (foot_y_offset wm)|> in
  let wm := wm<|lipm :=
                  lipm_set_parameters (lipm wm) (com_height wm) (time_step wm)
                    (com_period wm)|> in
  match Kinematics_set_config kinematic_data (kinematics wm) with
  | Done k => Done (wm<|kinematics := k|>)
  | Thrown what k => Thrown what (wm<|kinematics := k|>)
  | Undefined => Undefined
  end.

Notation "'read' x <- e ; rest" :=
  (match e with
   | Some x => rest
   | None => Undefined
   end)
  (at level 10, x name, e at level 100, rest at level 200, only parsing).

(** [goal_position.x == -1 && goal_position.y == -1]. *)
Definition is_stop_request (goal_position : Point2) : bool :=
Double.eqb (x goal_position) (-1) && Double.eqb (y goal_position) (-1).

(** walking_manager.cpp, lines 161-193: the stop request or the call of the
    planner.  [foot_steps[1]] is read here under [size() > 2]. *)
Definition set_goal_plan (goal_position : Point2) (goal_orientation : Angle)
  (wm : WalkingManager) : WalkingManager :=
let wm := if negb (initialized wm) then wm<|initialized := true|> else wm in
if is_stop_request goal_position then
  let wm :=
    if (List.length (foot_steps (foot_step_planner wm)) <=? 4)%nat
    then wm<|status := START|> else wm in
  if (3 <? List.length (foot_steps (foot_step_planner wm)))%nat
  then wm<|foot_step_planner ::= pop_front|> else wm
else
  let current_position := {| x := 0; y := 0 |} in
  let current_orientation := make_degree 0 in
  let '(current_position, current_orientation) :=
    match foot_steps (foot_step_planner wm) with
    | _ :: step1 :: _ :: _ =>
        let y_offset := 0 in
        let y_offset :=
          if negb (Status_eqb (status wm) START) then
            if Support_eqb (next_support wm) LEFT_FOOT
            then - foot_y_offset wm else foot_y_offset wm
          else y_offset in
        ({| x := x (position step1); y := y (position step1) + y_offset |},
         rotation step1)
    | _ => (current_position, current_orientation)
    end in
  let wm :=
    wm<|foot_step_planner :=
          plan (foot_step_planner wm) goal_position goal_orientation
            current_position current_orientation (next_support wm) (status wm)|> in
  wm<|status := WALKING|>.

(** walking_manager.cpp, lines 195-228: the trajectory is regenerated from
    [foot_steps[0].time], then the swing target is chosen from the labels of
    [foot_steps[0]] and [foot_steps[1]]. *)
Definition set_goal_target (wm : WalkingManager) : outcome WalkingManager :=
let steps := foot_steps (foot_step_planner wm) in
read step0 <- nth_error steps 0;
let time := time step0 in
let wm := wm<|lipm := lipm_update (lipm wm) time steps|> in
match support_foot step0 with
| LEFT_FOOT =>
    read step1 <- nth_error steps 1;
    let wm :=
      if Support_eqb (support_foot step1) BOTH_FEET then
        wm<|right_foot_target :=
              {| m0 := x (position step1); m1 := y (position step1);
                 m2 := radian (rotation step1) |}|>
      else
        wm<|right_foot_target :=
              {| m0 := x (position step1);
                 m1 := y (position step1) + foot_y_offset wm;
                 m2 := radian (rotation step1) |}|> in
    let wm :=
      wm<|right_offset_delta :=
            Matrix13.div (Matrix13.sub (right_foot_target wm) (right_offset wm))
              (step_frames wm)|> in
    let wm := wm<|next_support := RIGHT_FOOT|> in
    Done (wm<|walk_rotation := rotation step0|>)
| RIGHT_FOOT =>
    read step1 <- nth_error steps 1;
    let wm :=
      if Support_eqb (support_foot step1) BOTH_FEET then
        wm<|left_foot_target :=
              {| m0 := x (position step1); m1 := y (position step1);
                 m2 := radian (rotation step1) |}|>
      else
        wm<|left_foot_target :=
              {| m0 := x (position step1);
                 m1 := y (position step1) - foot_y_offset wm;
                 m2 := radian (rotation step1) |}|> in
    let wm :=
      wm<|left_offset_delta :=
            Matrix13.div (Matrix13.sub (left_foot_target wm) (left_offset wm))
              (step_frames wm)|> in
    let wm := wm<|next_support := LEFT_FOOT|> in
    Done (wm<|walk_rotation := rotation step0|>)
| BOTH_FEET =>
    Done (wm<|walk_rotation := rotation step0|>)
end.

(** walking_manager.cpp, lines 158-229. *)
Definition set_goal (goal_position : Point2) (goal_orientation : Angle)
  (wm : WalkingManager) : outcome WalkingManager :=
set_goal_target (set_goal_plan goal_position goal_orientation wm).

(** walking_manager.cpp, line 156. *)
Definition stop_position : Point2 := {| x := -1; y := -1 |}.

Definition stop (wm : WalkingManager) : outcome WalkingManager :=
set_goal stop_position (make_degree 0) wm.

(** [lipm.get_com_trajectory().size()] as a double. *)
Definition trajectory_size (wm : WalkingManager) : Q :=
inject_Z (Z.of_nat (List.length (get_com_trajectory (lipm wm)))).

(** The quantities of walking_manager.cpp, lines 243-253. *)
Definition step_period_of (wm : WalkingManager) (step0 step1 : FootStep) : Q :=
Double.round ((time step1 - time step0) / time_step wm).

Definition ssp_start_of (wm : WalkingManager) : Q :=
Double.round (dsp_duration wm / (2 * time_step wm)).

Definition ssp_end_of (step_period : Q) : Q := Double.round (step_period / 2).

(** walking_manager.cpp, lines 243-289, after the CoM sample is popped: the
    accumulated rotation, then the lift and the offset of the foot that is
    not [foot_steps[0]]'s support. *)
Definition update_joints_swing (wm : WalkingManager) (step0 step1 : FootStep)
  : WalkingManager :=
let step_period := step_period_of wm step0 step1 in
let rotation := angle_sub (rotation step1) (rotation step0) in
let rotation := angle_div rotation step_period in
let wm := wm<|walk_rotation ::= fun w => angle_add w rotation|> in
let ssp_start := ssp_start_of wm in
let ssp_end := ssp_end_of step_period in
let ssp_duration := ssp_end - ssp_start in
match support_foot step0 with
| LEFT_FOOT =>
    (* Raise or lower right foot *)
    let diff := step_period - trajectory_size wm in
    let wm :=
      if Double.ltb ssp_start diff && Double.leb diff ssp_end then
        wm<|right_up ::= fun up => up + foot_height wm / ssp_duration|>
      else if Double.ltb 0 (right_up wm) then
        wm<|right_up :=
              Double.max (right_up wm - foot_height wm / ssp_duration) 0|>
      else wm in
    (* Move foot to target position and orientation *)
    if Double.ltb ssp_start diff then
      let wm := wm<|right_offset ::= fun o => Matrix13.add o (right_offset_delta wm)|> in
      if Double.ltb (ssp_start + ssp_duration * 2) diff then
        wm<|right_offset := right_foot_target wm|>
      else wm
    else wm
| RIGHT_FOOT =>
    (* Raise or lower left foot *)
    let diff := step_period - trajectory_size wm in
    let wm :=
      if Double.ltb ssp_start diff && Double.leb diff ssp_end then
        wm<|left_up ::= fun up => up + foot_height wm / ssp_duration|>
      else if Double.ltb 0 (left_up wm) then
        wm<|left_up :=
              Double.max (left_up wm - foot_height wm / ssp_duration) 0|>
      else wm in
    (* Move foot to target position and orientation *)
    if Double.ltb ssp_start diff then
      let wm := wm<|left_offset ::= fun o => Matrix13.add o (left_offset_delta wm)|> in
      if Double.ltb (ssp_start + ssp_duration * 2) diff then
        wm<|left_offset := left_foot_target wm|>
      else wm
    else wm
| BOTH_FEET => wm
end.

(** walking_manager.cpp, lines 291-307: the two targets handed to the
    solver. *)
Definition left_foot_of (wm : WalkingManager) (com : COM) : Foot :=
let left_foot_pose :=
  {| m0 := m0 (left_offset wm) - x (com_position com);
     m1 := m1 (left_offset wm) - y (com_position com);
     m2 := m2 (left_offset wm) |} in
{| foot_position :=
     {| x3 := m0 left_foot_pose + x3 (initial_left_foot wm);
        y3 := m1 left_foot_pose + y3 (initial_left_foot wm);
        z3 := left_up wm + z3 (initial_left_foot wm) |};
   yaw := angle_sub (walk_rotation wm) (make_radian (m2 left_foot_pose)) |}.

Definition right_foot_of (wm : WalkingManager) (com : COM) : Foot :=
let right_foot_pose :=
  {| m0 := m0 (right_offset wm) - x (com_position com);
     m1 := m1 (right_offset wm) - y (com_position com);
     m2 := m2 (right_offset wm) |} in
{| foot_position :=
     {| x3 := m0 right_foot_pose + x3 (initial_right_foot wm);
        y3 := m1 right_foot_pose + y3 (initial_right_foot wm);
        z3 := right_up wm + z3 (initial_right_foot wm) |};
   yaw := angle_sub (walk_rotation wm) (make_radian (m2 right_foot_pose)) |}.

(** walking_manager.cpp, lines 316-322: every element of [joints] takes the
    entry of the solver's table at its identifier. *)
Definition publish (table : N -> Angle) (joints : list Joint) : list Joint :=
map (fun joint => set_position joint (degree (table (get_id joint)))) joints.

(** walking_manager.cpp, lines 309-322 for a solver [solver]: a fault is
    caught (and printed), and the table is copied out in either case. *)
Definition update_joints_solve
  (solver : Kinematics -> Foot -> Foot -> outcome Kinematics)
  (wm : WalkingManager) (com : COM) : outcome WalkingManager :=
let left_foot := left_foot_of wm com in
let right_foot := right_foot_of wm com in
match solver (kinematics wm) left_foot right_foot with
| Done k | Thrown _ k =>
    let wm := wm<|kinematics := k|> in
    let table := get_angles (kinematics wm) in
    Done (wm<|joints ::= publish table|>)
| Undefined => Undefined
end.

(** walking_manager.cpp, lines 231-323, for a solver [solver]. *)
Definition update_joints_with
  (solver : Kinematics -> Foot -> Foot -> outcome Kinematics)
  (wm : WalkingManager) : outcome WalkingManager :=
if negb (initialized wm) then Done wm
else
  match
    (if match get_com_trajectory (lipm wm) with [] => true | _ => false end
     then stop wm else Done wm)
  with
  | Done wm =>
      read popped <- lipm_pop_front (lipm wm);
      let '(com, l) := popped in
      let wm := wm<|lipm := l|> in
      let steps := foot_steps (foot_step_planner wm) in
      read step1 <- nth_error steps 1;
      read step0 <- nth_error steps 0;
      let wm := update_joints_swing wm step0 step1 in
      update_joints_solve solver wm com
  | Thrown what wm => Thrown what wm
  | Undefined => Undefined
  end.

(** [WalkingManager::update_joints]: the solver is [Kinematics]'s. *)
Definition update_joints (wm : WalkingManager) : outcome WalkingManager :=
update_joints_with solve_inverse_kinematics wm.

(** Groups of members an operation may leave as they were. *)
Definition same_config (wm wm' : WalkingManager) : Prop :=
time_step wm' = time_step wm /\ dsp_duration wm' = dsp_duration wm
/\ plan_period wm' = plan_period wm /\ step_frames wm' = step_frames wm
/\ com_period wm' = com_period wm /\ com_height wm' = com_height wm
/\ foot_height wm' = foot_height wm /\ feet_lateral wm' = feet_lateral wm
/\ foot_y_offset wm' = foot_y_offset wm /\ max_stride wm' = max_stride wm
/\ max_rotation wm' = max_rotation wm
/\ initial_left_foot wm' = initial_left_foot wm
/\ initial_right_foot wm' = initial_right_foot wm.

Definition same_feet (wm wm' : WalkingManager) : Prop :=
left_up wm' = left_up wm /\ right_up wm' = right_up wm
/\ left_offset wm' = left_offset wm /\ right_offset wm' = right_offset wm.

Definition same_targets (wm wm' : WalkingManager) : Prop :=
left_foot_target wm' = left_foot_target wm
/\ right_foot_target wm' = right_foot_target wm
/\ left_offset_delta wm' = left_offset_delta wm
/\ right_offset_delta wm' = right_offset_delta wm.

Definition same_output (wm wm' : WalkingManager) : Prop :=
kinematics wm' = kinematics wm /\ joints wm' = joints wm.

(** [n] successive ticks, stopping at the first that does not return. *)
Fixpoint ticks (n : nat) (wm : WalkingManager) : outcome WalkingManager :=
match n with
| O => Done wm
| S n =>
    match update_joints wm with
    | Done wm => ticks n wm
    | other => other
    end
end.

(** [n] successive calls of [stop], likewise. *)
Fixpoint stops (n : nat) (wm : WalkingManager) : outcome WalkingManager :=
match n with
| O => Done wm
| S n =>
    match stop wm with
    | Done wm => stops n wm
    | other => other
    end
end.

(** walking_manager.hpp, line 47. *)
Definition get_joints (wm : WalkingManager) : list Joint := joints wm.

(** The controllers a program can obtain through the public members: one
    just constructed, and what [set_config] (returning or throwing),
    [set_goal], [stop] and [update_joints] make of one.  [load_config] is
    [set_config] on the two documents it parses. *)
Inductive reachable : WalkingManager -> Prop :=
| reachable_new walk_rotation0 com_period0 :
    reachable (WalkingManager_new walk_rotation0 com_period0)
| reachable_set_config max_rotation_double walking_data kinematic_data wm wm' :
    reachable wm ->
    set_config max_rotation_double walking_data kinematic_data wm = Done wm' ->
    reachable wm'
| reachable_set_config_thrown
    max_rotation_double walking_data kinematic_data wm what wm' :
    reachable wm ->
    set_config max_rotation_double walking_data kinematic_data wm
    = Thrown what wm' ->
    reachable wm'
| reachable_set_goal goal_position goal_orientation wm wm' :
    reachable wm ->
    set_goal goal_position goal_orientation wm = Done wm' ->
    reachable wm'
| reachable_stop wm wm' :
    reachable wm -> stop wm = Done wm' -> reachable wm'
| reachable_update_joints wm wm' :
    reachable wm -> update_joints wm = Done wm' -> reachable wm'.

End Model.

(** ** An executable instance

    The theorems below hold for every implementation of the interfaces.
    To evaluate the controller on concrete inputs the interfaces are given
    one implementation here: keisan's angle as a number with its unit,
    polynomial stand-ins for the irrational functions of the solver (the
    runs look only at quantities that do not go through them; the angle
    of a NaN, which has no number, is given 0), a planner
    that answers with a three-step plan to the goal and a trajectory
    generator that produces one sample at the origin per tick of the
    first step. *)

Module Sim.

(** The double nearest to pi. *)
Definition pi : Q := 884279719003555 # 281474976710656.

Record SimAngle : Type := { data : Q; is_degree : bool }.

Definition sim_degree (a : SimAngle) : Q :=
if is_degree a then data a else Qred (data a * 180 / pi).

Definition sim_radian (a : SimAngle) : Q :=
if is_degree a then Qred (data a * pi / 180) else data a.


Definition sim_combine (op : Q -> Q -> Q) (a b : SimAngle) : SimAngle :=
if is_degree a then {| data := Qred (op (data a) (sim_degree b)); is_degree := true |}
else {| data := Qred (op (data a) (sim_radian b)); is_degree := false |}.

(** Six decimals are kept of every argument and result of the stand-ins. *)
Definition trim (v : Q) : Q := Qred (Qfloor (v * 1000000) # 1000000).

(** Taylor polynomials around 0. *)
Definition sim_sin (r : Q) : Q :=
let r := trim r in trim (r - r * r * r / 6 + r * r * r * r * r / 120).

Definition sim_cos (r : Q) : Q :=
let r := trim r in trim (1 - r * r / 2 + r * r * r * r / 24).

Definition sim_atan (t : Q) : Q :=
let t := trim t in trim (t - t * t * t / 3 + t * t * t * t * t / 5).

Definition sim_asin (v : Q) : Q :=
let v := trim v in trim (v + v * v * v / 6 + 3 * v * v * v * v * v / 40).

Definition sim_atan2 (b a : Q) : Q :=
let b := trim b in
let a := trim a in
if Double.ltb 0 a then
  if Double.leb (Qabs b) a then sim_atan (b / a)
  else if Double.ltb 0 b then pi / 2 - sim_atan (a / b)
  else - (pi / 2) - sim_atan (a / b)
else if Double.ltb a 0 then
  if Double.leb (Qabs b) (- a) then
    if Double.ltb b 0 then sim_atan (b / a) - pi else sim_atan (b / a) + pi
  else if Double.ltb 0 b then pi / 2 - sim_atan (a / b)
  else - (pi / 2) - sim_atan (a / b)
else if Double.ltb 0 b then pi / 2
else if Double.ltb b 0 then - (pi / 2)
else 0.

(** The square root to six decimals, through the integer square root. *)
Definition sim_sqrt (v : Q) : Q :=
let v := trim v in
Qred (Z.sqrt (Qnum v * Z.pos (Qden v) * 1000000000000) # (Qden v * 1000000)).

#[export] Instance keisan : Keisan := {|
  Angle := SimAngle;
  make_degree := fun d => {| data := d; is_degree := true |};
  make_radian := fun r => {| data := r; is_degree := false |};
  degree := sim_degree;
  radian := sim_radian;
  angle_add := sim_combine Qplus;
  angle_sub := sim_combine Qminus;
  angle_neg := fun a => {| data := - data a; is_degree := is_degree a |};
  angle_div := fun a d => {| data := Qred (data a / d); is_degree := is_degree a |};
  angle_cos := fun a => sim_cos (sim_radian a);
  angle_sin := fun a => sim_sin (sim_radian a);
  signed_arctan := fun b a => {| data := trim (sim_atan2 b a); is_degree := false |};
  arccos := fun v =>
    match v with
    | Finite v => {| data := trim (pi / 2 - sim_asin v); is_degree := false |}
    | _ => {| data := 0; is_degree := false |}
    end;
  c_sqrt := sim_sqrt;
  c_hypot := fun a b => sim_sqrt (trim a * trim a + trim b * trim b)
|}.

(** A numbering of the sixteen identifiers the sources name. *)
#[export] Instance tachimawari : Tachimawari := {|
  JointId_list := [1; 2; 3; 4; 5; 6; 7; 8; 9; 10; 11; 12; 13; 14; 15; 16]%N;
  RIGHT_HIP_YAW := 1;
  LEFT_HIP_YAW := 2;
  RIGHT_HIP_ROLL := 3;
  LEFT_HIP_ROLL := 4;
  RIGHT_HIP_PITCH := 5;
  LEFT_HIP_PITCH := 6;
  RIGHT_UPPER_KNEE := 7;
  LEFT_UPPER_KNEE := 8;
  RIGHT_LOWER_KNEE := 9;
  LEFT_LOWER_KNEE := 10;
  RIGHT_ANKLE_PITCH := 11;
  LEFT_ANKLE_PITCH := 12;
  RIGHT_ANKLE_ROLL := 13;
  LEFT_ANKLE_ROLL := 14;
  NECK_YAW := 15;
  NECK_PITCH := 16
|}.

(** The planner remembers [plan_period], the generator [time_step]. *)
#[export] Instance internals : Internals := {|
  PlannerState := Q;
  LipmState := Q
|}.

Definition other_foot (s : Support) : Support :=
match s with
| LEFT_FOOT => RIGHT_FOOT
| RIGHT_FOOT => LEFT_FOOT
| BOTH_FEET => BOTH_FEET
end.

(** Three steps: where the robot stands, the goal on the next support
    foot, the goal on both feet; one [plan_period] apart. *)
Definition sim_plan (p : FootStepPlanner) (goal_position : Point2)
  (goal_orientation : Angle) (current_position : Point2)
  (current_orientation : Angle) (next_support : Support) (status : Status)
  : FootStepPlanner :=
let period := planner_state p in
p<|foot_steps :=
    [ {| position := current_position; rotation := current_orientation;
         time := 0; support_foot := other_foot next_support |};
      {| position := goal_position; rotation := goal_orientation;
         time := period; support_foot := next_support |};
      {| position := goal_position; rotation := goal_orientation;
         time := 2 * period; support_foot := BOTH_FEET |} ]|>.

Definition origin : COM := {| com_position := {| x := 0; y := 0 |} |}.

(** One sample per tick between the first two footsteps. *)
Definition sim_update (l : LIPM) (now : Q) (steps : list FootStep) : LIPM :=
match steps with
| step0 :: step1 :: _ =>
    let n := Qfloor (Double.round ((time step1 - time step0) / lipm_state l)) in
    l<|com_trajectory := repeat origin (Z.to_nat n)|>
| _ => l<|com_trajectory := []|>
end.

#[export] Instance collaborators : Collaborators := {|
  FootStepPlanner_new := {| foot_steps := []; planner_state := 0 |};
  LIPM_new := {| com_trajectory := []; lipm_state := 0 |};
  planner_set_parameters := fun p max_stride max_rotation plan_period foot_y_offset =>
    p<|planner_state := plan_period|>;
  plan := sim_plan;
  lipm_set_parameters := fun l com_height time_step com_period =>
    l<|lipm_state := time_step|>;
  lipm_update := sim_update
|}.

(** *** Documents, states and runs *)

Definition number (key : string) (q : Q) : string * json := (key, JNumber q).

Definition timing_group (dsp_duration plan_period step_frames : Q)
  : string * json :=
("timing",
 JObject [ number "dsp_duration" dsp_duration; number "plan_period" plan_period;
           number "com_period" 0.01; number "step_frames" step_frames ]).

Definition posture_group (foot_height : Q) : string * json :=
("posture",
 JObject [ number "com_height" 0.2; number "foot_height" foot_height;
           number "feet_lateral" 0.1 ]).

Definition offset_group : string * json :=
("offset", JObject [ number "foot_y_offset" 0.05 ]).

Definition stride_group : string * json :=
("stride",
 JObject [ number "max_x" 0.05; number "max_y" 0.03; number "max_a" 10 ]).

(** walking.json: double support of 0.02 s, steps of 0.4 s, 20 frames per
    step, a lift of 0.02 m. *)
Definition walking_json : json :=
JObject [ timing_group 0.02 0.4 20; posture_group 0.02; offset_group; stride_group ].




(** A walking document whose posture group is missing. *)
Definition no_posture_json : json :=
JObject [ timing_group 0.02 0.4 20; offset_group; stride_group ].

Definition kinematic_json : json :=
JObject [ ("leg",
           JObject [ number "ankle_length" 0.03; number "calf_length" 0.1;
                     number "knee_length" 0.05; number "thigh_length" 0.1 ]);
          ("offset", JObject [ number "x" 0; number "y" 0.05 ]) ].

(** The object an operation leaves, [d] when it left none. *)
Definition state_of {S : Type} (o : outcome S) (d : S) : S :=
match o with
| Done s | Thrown _ s => s
| Undefined => d
end.

(** A controller just constructed. *)
Definition fresh : WalkingManager := WalkingManager_new (make_degree 0) 0.

(** Configured from a walking document, then sent to (0.1, 0) facing 0. *)
Definition configured_from (walking_data : json) : WalkingManager :=
state_of (set_config 0 walking_data kinematic_json fresh) fresh.

Definition goal : Point2 := {| x := 0.1; y := 0 |}.

Definition walking (walking_data : json) : WalkingManager :=
state_of (set_goal goal (make_degree 0) (configured_from walking_data))
  (configured_from walking_data).

(** The state [n] ticks after the goal was set. *)
Definition after_ticks (n : nat) (walking_data : json) : WalkingManager :=
state_of (ticks n (walking walking_data)) (walking walking_data).

(** A footstep on both feet, at the origin. *)
Definition standing_step : FootStep :=
{| position := {| x := 0; y := 0 |}; rotation := make_degree 0; time := 0;
   support_foot := BOTH_FEET |}.

(** The [i]-th footstep of the queue. *)
Definition planned (i : nat) (wm : WalkingManager) : FootStep :=
nth i (foot_steps (foot_step_planner wm)) standing_step.

(** A solver that throws at once. *)
Definition faulty_solver (k : Kinematics) (left_foot right_foot : Foot)
  : outcome Kinematics :=
Thrown "injected fault" k.


(** The walking controller after one tick. *)
Definition ticked : WalkingManager := after_ticks 1 walking_json.



(** A configured controller whose queue holds one footstep, on both feet;
    one whose queue holds four. *)
Definition standing : WalkingManager :=
(configured_from walking_json)<|foot_step_planner ::=
  fun p => p<|foot_steps := [standing_step]|>|>.

Definition four_steps : WalkingManager :=
(walking walking_json)<|foot_step_planner ::=
  fun p => p<|foot_steps ::= fun steps => (steps ++ [standing_step])%list|>|>.

(** A stride group with no [max_a], and a walking document that has it. *)
Definition bare_stride : json :=
JObject [ number "max_x" 0.05; number "max_y" 0.03 ].

Definition no_max_a_json : json :=
JObject [ timing_group 0.02 0.4 20; posture_group 0.02; offset_group;
          ("stride", bare_stride) ].

(** The walking controller with its trajectory used up. *)
Definition drained : WalkingManager :=
(walking walking_json)<|lipm ::= fun l => l<|com_trajectory := []|>|>.

(** The configured solver object, the two targets of the first tick, and
    the same targets 0.01 higher. *)
Definition solver_object : Kinematics := kinematics (walking walking_json).

Definition first_left : Foot := left_foot_of (walking walking_json) origin.

Definition first_right : Foot := right_foot_of (walking walking_json) origin.

Definition raised (foot : Foot) : Foot :=
{| foot_position :=
     {| x3 := x3 (foot_position foot); y3 := y3 (foot_position foot);
        z3 := z3 (foot_position foot) + 0.01 |};
   yaw := yaw foot |}.

(** The solver object after it solved for the two targets. *)
Definition solved : Kinematics :=
state_of (solve_inverse_kinematics solver_object first_left first_right)
  solver_object.

(** The NECK_YAW joint at position 0. *)
Definition head_joint : Joint := {| get_id := NECK_YAW; get_position := 0 |}.

End Sim.

(** * Properties *)

(** ** Doubles, [clamp], [assign_val] *)

Module DoubleFacts.

Lemma ltb_lt a b : Double.ltb a b = true <-> a < b.
Proof.
unfold Double.ltb.
rewrite negb_true_iff, <- not_true_iff_false, Qle_bool_iff.
split; [apply Qnot_le_lt | apply Qlt_not_le].
Qed.

Lemma ltb_ge a b : Double.ltb a b = false <-> b <= a.
Proof.
unfold Double.ltb. rewrite negb_false_iff. apply Qle_bool_iff.
Qed.

Lemma leb_le a b : Double.leb a b = true <-> a <= b.
Proof. apply Qle_bool_iff. Qed.





End DoubleFacts.

Module JsonFacts.

Lemma assign_double_ok j key val :
  fst (Json.assign_double j key val) = Json.has_number j key.
Proof.
unfold Json.assign_double, Json.has_number.
destruct (Json.find j key) as [[]|]; reflexivity.
Qed.

Lemma assign_double_keeps j key val :
  Json.has_number j key = false -> snd (Json.assign_double j key val) = val.
Proof.
unfold Json.assign_double, Json.has_number.
destruct (Json.find j key) as [[]|]; simpl; congruence.
Qed.

End JsonFacts.

Module ConfigFacts.

Lemma assign_section_eq data name val :
  Json.assign_section data name val
  = match Json.section_of data name with
    | Some section => (true, section)
    | None => (false, val)
    end.
Proof.
unfold Json.assign_section, Json.section_of.
destruct (Json.find data name) as [[]|]; reflexivity.
Qed.

Lemma assign_double_eq section key val :
  Json.assign_double section key val
  = (Json.has_number section key, Json.read_double section key val).
Proof.
unfold Json.read_double, Json.has_number, Json.assign_double.
destruct (Json.find section key) as [[]|]; reflexivity.
Qed.

Lemma assign_member_eq {Obj : Type} section key (get : Obj -> Q) set valid o :
  assign_member section key get set (valid, o)
  = (valid && Json.has_number section key,
     set (Json.read_double section key (get o)) o).
Proof.
unfold assign_member. now rewrite assign_double_eq.
Qed.

Lemma assign_group_found {Obj : Type} data name body valid (o : Obj) section :
  Json.section_of data name = Some section ->
  assign_group data name body (valid, o)
  = (valid && fst (body section (true, o)), snd (body section (true, o))).
Proof.
intros H. unfold assign_group. rewrite assign_section_eq, H.
destruct (body section (true, o)) as [[] o']; destruct valid; reflexivity.
Qed.

Lemma assign_group_absent {Obj : Type} data name body valid (o : Obj) :
  Json.section_of data name = None ->
  assign_group data name body (valid, o) = (false, o).
Proof.
intros H. unfold assign_group. now rewrite assign_section_eq, H.
Qed.

End ConfigFacts.

(** Projections of updated records, and case analysis on the tests of the
    code. *)
Ltac record_simpl :=
  repeat first
    [ progress cbn [set negb
       kinematics lipm foot_step_planner status initialized next_support
       walk_rotation time_step dsp_duration plan_period step_frames com_period
       com_height foot_height feet_lateral foot_y_offset max_stride max_rotation
       left_up right_up joints left_offset left_offset_delta left_foot_target
       right_offset right_offset_delta right_foot_target initial_left_foot
       initial_right_foot
       ankle_length calf_length knee_length thigh_length x_offset y_offset angles
       foot_steps planner_state com_trajectory lipm_state pop_front] in *
    | progress unfold RecordSettersUsingExistingGetters.const in * ].

Ltac break_if :=
  match goal with
  | |- context [if ?b then _ else _] => destruct b eqn:?
  end.

(** One group of a configuration document, read into a literal state. *)
Ltac read_group name :=
  let E := fresh "E" in
  destruct (Json.section_of _ name) as [?section|] eqn:E;
  [ rewrite (ConfigFacts.assign_group_found _ _ _ _ _ _ E)
  | rewrite (ConfigFacts.assign_group_absent _ _ _ _ _ E) ];
  cbv beta;
  repeat (rewrite ConfigFacts.assign_member_eq; cbv beta; record_simpl);
  cbv beta iota;
  rewrite ?ConfigFacts.assign_double_eq; cbv beta iota; cbn [fst snd].

Ltac break_match :=
  match goal with
  | |- context [match ?v with _ => _ end] => destruct v eqn:?
  end.

Section Facts.

Context {K : Keisan} {T : Tachimawari} {I : Internals} {C : Collaborators}.

(** ** The solver *)

(** The solver returns, and leaves alone every entry of the table that is
    not one of the fourteen it names. *)
Lemma write_other id a table i : i <> id -> write id a table i = table i.
Proof.
intros Hne. unfold write.
destruct (N.eqb_spec i id); [contradiction | reflexivity].
Qed.

Lemma solve_inverse_kinematics_spec k left_foot right_foot :
  exists k',
    solve_inverse_kinematics k left_foot right_foot = Done k'
    /\ forall id, ~ In id leg_joints -> angles k' id = angles k id.
Proof.
unfold solve_inverse_kinematics. cbv zeta.
eexists. split; [reflexivity|].
intros id Hid. unfold leg_joints in Hid. cbn [In] in Hid.
record_simpl.
rewrite !write_other; [reflexivity | intros ->; apply Hid; tauto ..].
Qed.

Lemma solve_inverse_kinematics_frame k left_foot right_foot k' id :
  solve_inverse_kinematics k left_foot right_foot = Done k' ->
  ~ In id leg_joints ->
  angles k' id = angles k id.
Proof.
intros H Hid.
destruct (solve_inverse_kinematics_spec k left_foot right_foot) as (k2 & E & F).
rewrite E in H. injection H as <-. now apply F.
Qed.

Lemma solve_inverse_kinematics_not_thrown k left_foot right_foot what k' :
  solve_inverse_kinematics k left_foot right_foot <> Thrown what k'.
Proof.
destruct (solve_inverse_kinematics_spec k left_foot right_foot) as (k2 & E & _).
rewrite E. discriminate.
Qed.



(** C8.  [Kinematics::set_config] returns normally on every document: the
    flag it computes is never tested, no error is raised. *)
Theorem Kinematics_set_config_returns (kinematic_data : json) (k : Kinematics) :
  exists k', Kinematics_set_config kinematic_data k = Done k'.
Proof.
unfold Kinematics_set_config.
destruct (assign_group kinematic_data "offset" _ _) as [valid_config k'].
now exists k'.
Qed.

(** ** set_goal *)

(** The stop request: lines 165-172. *)
Lemma set_goal_plan_stop goal_position goal_orientation wm :
  is_stop_request goal_position = true ->
  let steps := foot_steps (foot_step_planner wm) in
  let wm1 := set_goal_plan goal_position goal_orientation wm in
  foot_steps (foot_step_planner wm1)
    = (if (3 <? List.length steps)%nat then tl steps else steps)
  /\ status wm1 = (if (List.length steps <=? 4)%nat then START else status wm)
  /\ initialized wm1 = true.
Proof.
intros Hstop. unfold set_goal_plan. rewrite Hstop. cbv zeta.
destruct (initialized wm) eqn:Hi; repeat (record_simpl; break_if); record_simpl;
  repeat split; congruence.
Qed.

(** When the two reads succeed, [set_goal_target] returns. *)
Lemma set_goal_target_returns wm step0 step1 :
  nth_error (foot_steps (foot_step_planner wm)) 0 = Some step0 ->
  nth_error (foot_steps (foot_step_planner wm)) 1 = Some step1 ->
  exists wm', set_goal_target wm = Done wm'.
Proof.
intros H0 H1. unfold set_goal_target. rewrite H0.
destruct (support_foot step0); record_simpl; rewrite ?H1; eexists; reflexivity.
Qed.

(** [set_goal_target] changes neither the queue nor the status. *)
Lemma set_goal_target_keeps wm wm' :
  set_goal_target wm = Done wm' ->
  foot_step_planner wm' = foot_step_planner wm
  /\ status wm' = status wm
  /\ initialized wm' = initialized wm.
Proof.
unfold set_goal_target.
destruct (nth_error (foot_steps (foot_step_planner wm)) 0) as [step0|];
  [|discriminate].
destruct (support_foot step0); record_simpl;
  try (destruct (nth_error (foot_steps (foot_step_planner wm)) 1) as [step1|];
       [|discriminate]; destruct (Support_eqb (support_foot step1) BOTH_FEET));
  intros H; injection H as <-; record_simpl; auto.
Qed.

Lemma set_goal_plan_keeps goal_position goal_orientation wm :
  let wm1 := set_goal_plan goal_position goal_orientation wm in
  same_config wm wm1 /\ same_feet wm wm1 /\ same_targets wm wm1
  /\ same_output wm wm1 /\ next_support wm1 = next_support wm
  /\ lipm wm1 = lipm wm.
Proof.
unfold set_goal_plan, same_config, same_feet, same_targets, same_output.
cbv zeta.
repeat (record_simpl; break_match); record_simpl; repeat split; reflexivity.
Qed.

(** The swing target of lines 198-226 when [foot_steps[0]] is the left
    support: the right foot is retargeted, the left foot is left alone. *)
Lemma set_goal_target_left wm step0 step1 :
  nth_error (foot_steps (foot_step_planner wm)) 0 = Some step0 ->
  nth_error (foot_steps (foot_step_planner wm)) 1 = Some step1 ->
  support_foot step0 = LEFT_FOOT ->
  exists wm',
    set_goal_target wm = Done wm'
    /\ right_foot_target wm'
       = {| m0 := x (position step1);
            m1 := (if Support_eqb (support_foot step1) BOTH_FEET
                   then y (position step1)
                   else y (position step1) + foot_y_offset wm);
            m2 := radian (rotation step1) |}
    /\ right_offset_delta wm'
       = Matrix13.div (Matrix13.sub (right_foot_target wm') (right_offset wm))
           (step_frames wm)
    /\ next_support wm' = RIGHT_FOOT
    /\ left_foot_target wm' = left_foot_target wm
    /\ left_offset_delta wm' = left_offset_delta wm
    /\ same_feet wm wm' /\ same_config wm wm' /\ same_output wm wm'.
Proof.
intros H0 H1 Hs. unfold set_goal_target. rewrite H0. cbv zeta.
rewrite Hs. record_simpl. rewrite H1.
unfold same_feet, same_config, same_output.
destruct (Support_eqb (support_foot step1) BOTH_FEET);
  eexists; (split; [reflexivity|]); record_simpl; repeat split; reflexivity.
Qed.

Lemma set_goal_target_right wm step0 step1 :
  nth_error (foot_steps (foot_step_planner wm)) 0 = Some step0 ->
  nth_error (foot_steps (foot_step_planner wm)) 1 = Some step1 ->
  support_foot step0 = RIGHT_FOOT ->
  exists wm',
    set_goal_target wm = Done wm'
    /\ left_foot_target wm'
       = {| m0 := x (position step1);
            m1 := (if Support_eqb (support_foot step1) BOTH_FEET
                   then y (position step1)
                   else y (position step1) - foot_y_offset wm);
            m2 := radian (rotation step1) |}
    /\ left_offset_delta wm'
       = Matrix13.div (Matrix13.sub (left_foot_target wm') (left_offset wm))
           (step_frames wm)
    /\ next_support wm' = LEFT_FOOT
    /\ right_foot_target wm' = right_foot_target wm
    /\ right_offset_delta wm' = right_offset_delta wm
    /\ same_feet wm wm' /\ same_config wm wm' /\ same_output wm wm'.
Proof.
intros H0 H1 Hs. unfold set_goal_target. rewrite H0. cbv zeta.
rewrite Hs. record_simpl. rewrite H1.
unfold same_feet, same_config, same_output.
destruct (Support_eqb (support_foot step1) BOTH_FEET);
  eexists; (split; [reflexivity|]); record_simpl; repeat split; reflexivity.
Qed.

Lemma set_goal_target_both wm step0 :
  nth_error (foot_steps (foot_step_planner wm)) 0 = Some step0 ->
  support_foot step0 = BOTH_FEET ->
  exists wm',
    set_goal_target wm = Done wm'
    /\ next_support wm' = next_support wm
    /\ same_targets wm wm'
    /\ same_feet wm wm' /\ same_config wm wm' /\ same_output wm wm'.
Proof.
intros H0 Hs. unfold set_goal_target. rewrite H0. cbv zeta.
rewrite Hs. unfold same_targets, same_feet, same_config, same_output.
eexists; (split; [reflexivity|]); record_simpl; repeat split; reflexivity.
Qed.

(** C4.  A stop request that returns has reset the status to START when the
    queue held at most 4 entries and left it otherwise, and has popped
    exactly the front footstep when the queue held more than 3 entries and
    left the queue otherwise: with 4 entries it has done both.  It returns
    whenever the queue holds at least two footsteps. *)
Theorem set_goal_stop_request goal_position goal_orientation wm :
  is_stop_request goal_position = true ->
  let steps := foot_steps (foot_step_planner wm) in
  ((2 <= List.length steps)%nat ->
   exists wm', set_goal goal_position goal_orientation wm = Done wm')
  /\ forall wm',
       set_goal goal_position goal_orientation wm = Done wm' ->
       ((List.length steps <= 4)%nat -> status wm' = START)
       /\ ((4 < List.length steps)%nat -> status wm' = status wm)
       /\ ((3 < List.length steps)%nat ->
            foot_steps (foot_step_planner wm') = tl steps)
       /\ ((List.length steps <= 3)%nat ->
            foot_steps (foot_step_planner wm') = steps)
       /\ initialized wm' = true.
Proof.
intros Hstop steps.
destruct (set_goal_plan_stop goal_position goal_orientation wm Hstop)
  as (Hq & Hst & Hin).
cbv zeta in Hq, Hst, Hin. fold steps in Hq, Hst.
set (wm1 := set_goal_plan goal_position goal_orientation wm) in *.
split.
- intros Hlen.
  assert (Hlen1 : (2 <= List.length (foot_steps (foot_step_planner wm1)))%nat).
  { rewrite Hq. destruct (Nat.ltb_spec 3 (List.length steps)).
    - destruct steps as [|a [|b [|c l]]]; cbn in *; lia.
    - exact Hlen. }
  destruct (foot_steps (foot_step_planner wm1)) as [|step0 [|step1 rest]] eqn:E1;
    cbn in Hlen1; try lia.
  apply (set_goal_target_returns wm1 step0 step1); rewrite E1; reflexivity.
- intros wm' Hwm'. unfold set_goal in Hwm'. fold wm1 in Hwm'.
  destruct (set_goal_target_keeps wm1 wm' Hwm') as (Hp & Hs & Hi).
  rewrite Hs, Hi, Hp, Hst, Hin, Hq.
  repeat split.
  + intros H. apply Nat.leb_le in H. now rewrite H.
  + intros H. apply Nat.leb_gt in H. now rewrite H.
  + intros H. apply Nat.ltb_lt in H. now rewrite H.
  + intros H. apply Nat.ltb_ge in H. now rewrite H.
Qed.

(** C9.  After the planning branch, with [step0] the first queued footstep:
    when [step0] is the left support and [step1] is the second queued
    footstep, the right foot's target becomes [step1]'s pose, raw when
    [step1] is labelled BOTH and shifted by [+ foot_y_offset] otherwise, and
    nothing of the left foot changes; when [step0] is the right support the
    same holds for the left foot with [- foot_y_offset]; when [step0] is
    labelled BOTH no foot is retargeted. *)
Theorem set_goal_swing_target goal_position goal_orientation wm step0 :
  let wm1 := set_goal_plan goal_position goal_orientation wm in
  nth_error (foot_steps (foot_step_planner wm1)) 0 = Some step0 ->
  match support_foot step0 with
  | LEFT_FOOT =>
      forall step1,
        nth_error (foot_steps (foot_step_planner wm1)) 1 = Some step1 ->
        exists wm',
          set_goal goal_position goal_orientation wm = Done wm'
          /\ right_foot_target wm'
             = {| m0 := x (position step1);
                  m1 := (if Support_eqb (support_foot step1) BOTH_FEET
                         then y (position step1)
                         else y (position step1) + foot_y_offset wm);
                  m2 := radian (rotation step1) |}
          /\ next_support wm' = RIGHT_FOOT
          /\ left_foot_target wm' = left_foot_target wm
          /\ left_offset_delta wm' = left_offset_delta wm
          /\ left_offset wm' = left_offset wm
  | RIGHT_FOOT =>
      forall step1,
        nth_error (foot_steps (foot_step_planner wm1)) 1 = Some step1 ->
        exists wm',
          set_goal goal_position goal_orientation wm = Done wm'
          /\ left_foot_target wm'
             = {| m0 := x (position step1);
                  m1 := (if Support_eqb (support_foot step1) BOTH_FEET
                         then y (position step1)
                         else y (position step1) - foot_y_offset wm);
                  m2 := radian (rotation step1) |}
          /\ next_support wm' = LEFT_FOOT
          /\ right_foot_target wm' = right_foot_target wm
          /\ right_offset_delta wm' = right_offset_delta wm
          /\ right_offset wm' = right_offset wm
  | BOTH_FEET =>
      exists wm',
        set_goal goal_position goal_orientation wm = Done wm'
        /\ same_targets wm wm' /\ same_feet wm wm'
        /\ next_support wm' = next_support wm
  end.
Proof.
intros wm1 H0.
destruct (set_goal_plan_keeps goal_position goal_orientation wm)
  as (Hc & Hf & Ht & _ & Hn & _).
fold wm1 in Hc, Hf, Ht, Hn.
unfold same_config in Hc. unfold same_feet in Hf. unfold same_targets in Ht.
destruct Hc as (_ & _ & _ & _ & _ & _ & _ & _ & Hy & _).
destruct Hf as (Hlu & Hru & Hlo & Hro).
destruct Ht as (Hlt & Hrt & Hld & Hrd).
unfold set_goal. fold wm1.
destruct (support_foot step0) eqn:Hs.
- intros step1 H1.
  destruct (set_goal_target_left wm1 step0 step1 H0 H1 Hs)
    as (wm' & E & Ht & _ & Hns & Hl & Hd & (_ & _ & Hlo' & _) & _ & _).
  exists wm'. split; [exact E|].
  rewrite Ht, Hns, Hl, Hd, Hlo', Hy, Hlt, Hld, Hlo. repeat split; reflexivity.
- intros step1 H1.
  destruct (set_goal_target_right wm1 step0 step1 H0 H1 Hs)
    as (wm' & E & Ht & _ & Hns & Hr & Hd & (_ & _ & _ & Hro') & _ & _).
  exists wm'. split; [exact E|].
  rewrite Ht, Hns, Hr, Hd, Hro', Hy, Hrt, Hrd, Hro. repeat split; reflexivity.
- destruct (set_goal_target_both wm1 step0 H0 Hs)
    as (wm' & E & Hns & (Ht1 & Ht2 & Ht3 & Ht4) & (Hf1 & Hf2 & Hf3 & Hf4) & _ & _).
  exists wm'. split; [exact E|].
  unfold same_targets, same_feet.
  rewrite Ht1, Ht2, Ht3, Ht4, Hf1, Hf2, Hf3, Hf4, Hns.
  repeat split; assumption.
Qed.
(** C10.  [set_goal] reads outside the queue exactly when the queue the
    planning branch leaves is empty, or holds one footstep that is labelled
    LEFT or RIGHT: [foot_steps[0]] is read on every call, [foot_steps[1]]
    only under those two labels.  A stop request leaves a queue of at most
    3 entries as it found it, so for it the condition bears on the queue
    before the call. *)
Theorem set_goal_out_of_bounds goal_position goal_orientation wm :
  let steps :=
    foot_steps (foot_step_planner (set_goal_plan goal_position goal_orientation wm)) in
  (set_goal goal_position goal_orientation wm = Undefined
   <-> steps = [] \/ exists step0, steps = [step0] /\ support_foot step0 <> BOTH_FEET)
  /\ (is_stop_request goal_position = true ->
      (List.length (foot_steps (foot_step_planner wm)) <= 3)%nat ->
      steps = foot_steps (foot_step_planner wm)).
Proof.
intros steps. split.
- unfold set_goal, set_goal_target. fold steps. cbv zeta.
  destruct steps as [|step0 [|step1 rest]]; cbn [nth_error].
  + split; auto.
  + destruct (support_foot step0) eqn:Hs; record_simpl; cbn [nth_error].
    * split; [intros _|reflexivity]. right. exists step0. split; congruence.
    * split; [intros _|reflexivity]. right. exists step0. split; congruence.
    * split; [discriminate|].
      intros [H|(s & H & Hne)]; [discriminate|].
      injection H as <-. congruence.
  + split.
    * destruct (support_foot step0); record_simpl; cbn [nth_error];
        repeat break_if; discriminate.
    * intros [H|(s & H & _)]; discriminate.
- intros Hstop Hlen. unfold steps.
  destruct (set_goal_plan_stop goal_position goal_orientation wm Hstop) as (Hq & _).
  cbv zeta in Hq. rewrite Hq.
  apply Nat.ltb_ge in Hlen. now rewrite Hlen.
Qed.

(** ** update_joints *)

Lemma set_goal_keeps goal_position goal_orientation wm wm' :
  set_goal goal_position goal_orientation wm = Done wm' ->
  same_config wm wm' /\ same_feet wm wm' /\ same_output wm wm'
  /\ initialized wm' = true.
Proof.
unfold set_goal. intros H.
destruct (set_goal_plan_keeps goal_position goal_orientation wm)
  as (Hc & Hf & _ & Ho & _ & _).
set (wm1 := set_goal_plan goal_position goal_orientation wm) in *.
assert (Hi : initialized wm1 = true).
{ unfold wm1, set_goal_plan. cbv zeta.
  destruct (initialized wm) eqn:Hi;
    repeat (record_simpl; break_match); record_simpl; congruence. }
assert (H' : same_config wm1 wm' /\ same_feet wm1 wm' /\ same_output wm1 wm').
{ unfold set_goal_target in H.
  destruct (nth_error (foot_steps (foot_step_planner wm1)) 0) as [step0|] eqn:H0;
    [|discriminate].
  destruct (support_foot step0) eqn:Hs.
  - destruct (nth_error (foot_steps (foot_step_planner wm1)) 1) as [step1|] eqn:H1;
      [|discriminate].
    destruct (set_goal_target_left wm1 step0 step1 H0 H1 Hs)
      as (w & E & _ & _ & _ & _ & _ & F1 & F2 & F3).
    unfold set_goal_target in E. rewrite H0, Hs, H1 in E. rewrite E in H.
    injection H as <-. auto.
  - destruct (nth_error (foot_steps (foot_step_planner wm1)) 1) as [step1|] eqn:H1;
      [|discriminate].
    destruct (set_goal_target_right wm1 step0 step1 H0 H1 Hs)
      as (w & E & _ & _ & _ & _ & _ & F1 & F2 & F3).
    unfold set_goal_target in E. rewrite H0, Hs, H1 in E. rewrite E in H.
    injection H as <-. auto.
  - destruct (set_goal_target_both wm1 step0 H0 Hs)
      as (w & E & _ & _ & F1 & F2 & F3).
    unfold set_goal_target in E. rewrite H0, Hs in E. rewrite E in H.
    injection H as <-. auto. }
destruct H' as (Hc' & Hf' & Ho').
destruct (set_goal_target_keeps wm1 wm' H) as (_ & _ & Hi').
unfold same_config, same_feet, same_output in *.
repeat match goal with H : _ /\ _ |- _ => destruct H end.
repeat split; congruence.
Qed.


(** What the swing stage (lines 243-289) leaves alone. *)
Lemma update_joints_swing_keeps wm step0 step1 :
  let wm' := update_joints_swing wm step0 step1 in
  same_config wm wm' /\ same_targets wm wm' /\ same_output wm wm'
  /\ lipm wm' = lipm wm /\ foot_step_planner wm' = foot_step_planner wm
  /\ status wm' = status wm /\ initialized wm' = initialized wm
  /\ next_support wm' = next_support wm.
Proof.
unfold update_joints_swing, same_config, same_targets, same_output.
cbv zeta.
repeat (record_simpl; break_match); record_simpl; repeat split; reflexivity.
Qed.







(** The solve-and-publish stage (lines 291-322): it returns whenever the
    solver returns or throws, the joints are then the table's entries in
    degrees, and nothing else than the solver object and the joints
    changes. *)
Lemma update_joints_solve_spec solver wm com wm' :
  update_joints_solve solver wm com = Done wm' ->
  (solver (kinematics wm) (left_foot_of wm com) (right_foot_of wm com)
     = Done (kinematics wm')
   \/ exists what,
        solver (kinematics wm) (left_foot_of wm com) (right_foot_of wm com)
        = Thrown what (kinematics wm'))
  /\ joints wm' = publish (angles (kinematics wm')) (joints wm)
  /\ same_config wm wm' /\ same_feet wm wm' /\ same_targets wm wm'
  /\ lipm wm' = lipm wm /\ foot_step_planner wm' = foot_step_planner wm
  /\ status wm' = status wm /\ initialized wm' = initialized wm
  /\ next_support wm' = next_support wm.
Proof.
unfold update_joints_solve, same_config, same_feet, same_targets, get_angles.
cbv zeta.
destruct (solver (kinematics wm) (left_foot_of wm com) (right_foot_of wm com))
  as [k|what k|]; [| |discriminate];
  intros H; injection H as <-; record_simpl;
  (split; [eauto|]); repeat split; reflexivity.
Qed.

Lemma update_joints_solve_returns solver wm com :
  solver (kinematics wm) (left_foot_of wm com) (right_foot_of wm com) <> Undefined ->
  exists wm', update_joints_solve solver wm com = Done wm'.
Proof.
unfold update_joints_solve. cbv zeta.
destruct (solver (kinematics wm) (left_foot_of wm com) (right_foot_of wm com));
  intros H; try contradiction; eexists; reflexivity.
Qed.

(** A tick that finds a sample in the trajectory (no stop request is
    re-issued) is the pop, the swing stage and the solve stage. *)
Lemma update_joints_with_step solver wm com rest :
  initialized wm = true ->
  com_trajectory (lipm wm) = com :: rest ->
  update_joints_with solver wm
  = match nth_error (foot_steps (foot_step_planner wm)) 1,
          nth_error (foot_steps (foot_step_planner wm)) 0 with
    | Some step1, Some step0 =>
        update_joints_solve solver
          (update_joints_swing
             (wm<|lipm := (lipm wm)<|com_trajectory := rest|>|>) step0 step1)
          com
    | _, _ => Undefined
    end.
Proof.
intros Hi Ht. unfold update_joints_with, get_com_trajectory, lipm_pop_front.
rewrite Hi, Ht. cbn [negb]. cbv beta iota. rewrite Ht. record_simpl.
destruct (nth_error (foot_steps (foot_step_planner wm)) 1); [|reflexivity].
destruct (nth_error (foot_steps (foot_step_planner wm)) 0); reflexivity.
Qed.


Lemma set_goal_not_thrown goal_position goal_orientation wm what wm' :
  set_goal goal_position goal_orientation wm <> Thrown what wm'.
Proof.
unfold set_goal, set_goal_target. cbv zeta.
repeat (record_simpl; break_match); discriminate.
Qed.



(** A real tick returns as soon as it finds a sample and two footsteps. *)
Lemma update_joints_returns wm com rest step0 step1 :
  initialized wm = true ->
  com_trajectory (lipm wm) = com :: rest ->
  nth_error (foot_steps (foot_step_planner wm)) 0 = Some step0 ->
  nth_error (foot_steps (foot_step_planner wm)) 1 = Some step1 ->
  exists wm',
    update_joints wm = Done wm'
    /\ update_joints_solve solve_inverse_kinematics
         (update_joints_swing
            (wm<|lipm := (lipm wm)<|com_trajectory := rest|>|>) step0 step1)
         com
       = Done wm'.
Proof.
intros Hi Ht H0 H1. unfold update_joints.
rewrite (update_joints_with_step _ wm com rest Hi Ht), H0, H1.
set (ws := update_joints_swing _ step0 step1).
destruct (update_joints_solve_returns solve_inverse_kinematics ws com)
  as [wm' E].
- destruct (solve_inverse_kinematics_spec (kinematics ws)
              (left_foot_of ws com) (right_foot_of ws com)) as (k' & Ek & _).
  rewrite Ek. discriminate.
- exists wm'. split; exact E.
Qed.


(** The state a tick works on after the pop has the members of the state
    before it, the trajectory apart. *)
Lemma popped_keeps (wm : WalkingManager) rest :
  let wp := wm<|lipm := (lipm wm)<|com_trajectory := rest|>|> in
  same_config wm wp /\ same_feet wm wp /\ same_targets wm wp
  /\ same_output wm wp
  /\ foot_step_planner wp = foot_step_planner wm
  /\ trajectory_size wp = inject_Z (Z.of_nat (List.length rest))
  /\ step_period_of wp = step_period_of wm
  /\ ssp_start_of wp = ssp_start_of wm.
Proof.
unfold same_config, same_feet, same_targets, same_output, trajectory_size,
  get_com_trajectory, step_period_of, ssp_start_of.
cbv zeta. record_simpl. repeat split; reflexivity.
Qed.








(** A tick of an initialized controller either stops before the solver,
    whatever the solver, or hands the solve stage a state [ws] and a sample
    [com] that do not depend on the solver; [ws] has the solver object and
    the joints of the state the tick started in. *)
Lemma update_joints_with_stages wm :
  initialized wm = true ->
  (forall solver, update_joints_with solver wm = Undefined)
  \/ exists ws com,
       (forall solver,
          update_joints_with solver wm = update_joints_solve solver ws com)
       /\ same_output wm ws /\ initialized ws = true.
Proof.
intros Hi.
assert (Htail : forall w,
  same_output wm w -> initialized w = true ->
  (forall solver : Kinematics -> Foot -> Foot -> outcome Kinematics,
     match lipm_pop_front (lipm w) with
     | Some popped =>
         let '(com, l) := popped in
         let w := w<|lipm := l|> in
         let steps := foot_steps (foot_step_planner w) in
         match nth_error steps 1 with
         | Some step1 =>
             match nth_error steps 0 with
             | Some step0 =>
                 let w := update_joints_swing w step0 step1 in
                 update_joints_solve solver w com
             | None => Undefined
             end
         | None => Undefined
         end
     | None => Undefined
     end = Undefined)
  \/ exists ws com,
       (forall solver : Kinematics -> Foot -> Foot -> outcome Kinematics,
          match lipm_pop_front (lipm w) with
          | Some popped =>
              let '(com, l) := popped in
              let w := w<|lipm := l|> in
              let steps := foot_steps (foot_step_planner w) in
              match nth_error steps 1 with
              | Some step1 =>
                  match nth_error steps 0 with
                  | Some step0 =>
                      let w := update_joints_swing w step0 step1 in
                      update_joints_solve solver w com
                  | None => Undefined
                  end
              | None => Undefined
              end
          | None => Undefined
          end = update_joints_solve solver ws com)
       /\ same_output wm ws /\ initialized ws = true).
{ intros w (Hk & Hj) Hiw.
  destruct (lipm_pop_front (lipm w)) as [[com l]|]; [|left; reflexivity].
  cbv zeta.
  destruct (nth_error (foot_steps (foot_step_planner w<|lipm := l|>)) 1)
    as [step1|]; [|left; reflexivity].
  destruct (nth_error (foot_steps (foot_step_planner w<|lipm := l|>)) 0)
    as [step0|]; [|left; reflexivity].
  right. exists (update_joints_swing (w<|lipm := l|>) step0 step1), com.
  split; [reflexivity|].
  destruct (update_joints_swing_keeps (w<|lipm := l|>) step0 step1)
    as (_ & _ & (Hk' & Hj') & _ & _ & _ & Hi' & _).
  cbv zeta in Hk', Hj', Hi'. unfold same_output.
  rewrite Hk', Hj', Hi'. record_simpl. auto. }
unfold update_joints_with. rewrite Hi. cbn [negb].
destruct (get_com_trajectory (lipm wm)).
- destruct (stop wm) as [wm0|what wm0|] eqn:E.
  + destruct (set_goal_keeps _ _ _ _ E) as (_ & _ & Ho & Hi0).
    now apply Htail.
  + exfalso. apply (set_goal_not_thrown _ _ _ _ _ E).
  + left. reflexivity.
- apply Htail; [split; reflexivity | exact Hi].
Qed.




(** What one real tick does to the published joints and to the table. *)
Lemma update_joints_published wm wm' :
  initialized wm = true ->
  update_joints wm = Done wm' ->
  joints wm' = publish (angles (kinematics wm')) (joints wm)
  /\ (forall id, ~ In id leg_joints ->
        angles (kinematics wm') id = angles (kinematics wm) id)
  /\ initialized wm' = true.
Proof.
intros Hi H. unfold update_joints in H.
destruct (update_joints_with_stages wm Hi) as [U|(ws & com & F & (Hk & Hj) & Hiws)].
{ rewrite U in H. discriminate. }
rewrite F in H.
destruct (update_joints_solve_spec _ _ _ _ H)
  as (Hsol & Hpub & _ & _ & _ & _ & _ & _ & Hi' & _).
split; [now rewrite Hpub, Hj|]. split; [|congruence].
intros id Hid. rewrite <- Hk.
destruct Hsol as [Hsol|(what & Hsol)].
- now apply (solve_inverse_kinematics_frame _ _ _ _ _ Hsol).
- exfalso. apply (solve_inverse_kinematics_not_thrown _ _ _ _ _ Hsol).
Qed.


(** ** set_config *)

(** C7, as the code has it.  On a walking document that is not in order
    [set_config] throws once the four groups have been read, and the
    controller it leaves holds every field that could be read: each of the
    ten numbers has the value of the document when its section is there and
    its field is a number, and what it held before otherwise.
    [max_rotation] is what it was when the stride section is absent; when
    the section is there it is overwritten with the angle made of the local
    [max_rotation_double], which holds the [max_a] of the document when that
    is a number and what it held when it was declared, without a value,
    otherwise.  The planner, the trajectory generator and the solver are
    not reconfigured. *)
Theorem set_config_invalid_applies_fields
  max_rotation_double walking_data kinematic_data wm :
  Json.walking_config_ok walking_data = false ->
  exists what wm',
    set_config max_rotation_double walking_data kinematic_data wm = Thrown what wm'
    /\ dsp_duration wm'
       = Json.configured walking_data "timing" "dsp_duration" (dsp_duration wm)
    /\ plan_period wm'
       = Json.configured walking_data "timing" "plan_period" (plan_period wm)
    /\ com_period wm'
       = Json.configured walking_data "timing" "com_period" (com_period wm)
    /\ step_frames wm'
       = Json.configured walking_data "timing" "step_frames" (step_frames wm)
    /\ com_height wm'
       = Json.configured walking_data "posture" "com_height" (com_height wm)
    /\ foot_height wm'
       = Json.configured walking_data "posture" "foot_height" (foot_height wm)
    /\ feet_lateral wm'
       = Json.configured walking_data "posture" "feet_lateral" (feet_lateral wm)
    /\ foot_y_offset wm'
       = Json.configured walking_data "offset" "foot_y_offset" (foot_y_offset wm)
    /\ x (max_stride wm')
       = Json.configured walking_data "stride" "max_x" (x (max_stride wm))
    /\ y (max_stride wm')
       = Json.configured walking_data "stride" "max_y" (y (max_stride wm))
    /\ max_rotation wm'
       = match Json.section_of walking_data "stride" with
         | Some stride_section =>
             make_degree
               (Json.read_double stride_section "max_a" max_rotation_double)
         | None => max_rotation wm
         end
    /\ foot_step_planner wm' = foot_step_planner wm
    /\ lipm wm' = lipm wm
    /\ kinematics wm' = kinematics wm.
Proof.
intros Hbad. unfold set_config.
unfold Json.walking_config_ok, Json.group_ok in Hbad.
unfold Json.configured.
destruct wm.
cbv zeta.
read_group "timing"; read_group "posture"; read_group "offset";
  read_group "stride".
all: cbn [forallb] in Hbad.
all: match goal with
  | |- context [if negb ?f then _ else _] =>
      let Hf := fresh "Hf" in
      assert (Hf : f = false)
        by (repeat first
              [ rewrite andb_false_r | rewrite andb_false_l
              | rewrite andb_true_l | rewrite andb_true_r | rewrite andb_assoc ];
            repeat first
              [ rewrite andb_false_r in Hbad | rewrite andb_false_l in Hbad
              | rewrite andb_true_l in Hbad | rewrite andb_true_r in Hbad
              | rewrite andb_assoc in Hbad ];
            first [reflexivity | exact Hbad]);
      try rewrite Hf
  end.
all: (cbn [negb]; do 2 eexists; (split; [reflexivity|])).
all: (record_simpl; repeat split; reflexivity).
Qed.

End Facts.

(** * Further properties *)

(** The entries of a list without duplicates, told apart two by two. *)
Ltac distinct_ids H :=
  repeat match type of H with
         | NoDup (_ :: _) =>
             let Hin := fresh "Hin" in
             let H' := fresh "Hnd" in
             pose proof (proj1 (NoDup_cons_iff _ _) H) as [Hin H'];
             clear H; rename H' into H; cbn [In] in Hin
         end;
  repeat match goal with
         | Hin : ~ (_ \/ _) |- _ => apply Decidable.not_or in Hin; destruct Hin
         end.

(** The test of one [write] against an identifier that is known. *)
Ltac decide_write :=
  match goal with
  | |- context [N.eqb ?a ?a] => rewrite (N.eqb_refl a)
  | |- context [N.eqb ?a ?b] =>
      destruct (N.eqb_spec a b); [exfalso; congruence|]
  end.

(** The test of one [write] against any identifier: a hit closes the goal. *)
Ltac case_write id :=
  match goal with
  | |- context [N.eqb id ?j] =>
      destruct (N.eqb_spec id j) as [->|?]; [reflexivity|]
  end.

Section SolverFacts.

Context {K : Keisan} {T : Tachimawari}.

(** ** The solver, continued *)

(** Two calls of the solver on objects of the same geometry: each returns
    its object with the fourteen writes of lines 119-125 and 159-165 made,
    for a hip roll, a hip pitch and a knee pitch of each leg, and the three
    angles of a leg are the same in both calls when the target of that leg
    is. *)
Lemma solve_inverse_kinematics_shape k1 k2 left1 right1 left2 right2 :
  ankle_length k1 = ankle_length k2 -> calf_length k1 = calf_length k2 ->
  knee_length k1 = knee_length k2 -> thigh_length k1 = thigh_length k2 ->
  x_offset k1 = x_offset k2 -> y_offset k1 = y_offset k2 ->
  exists lr1 lh1 lk1 rr1 rh1 rk1 lr2 lh2 lk2 rr2 rh2 rk2,
    solve_inverse_kinematics k1 left1 right1
    = Done (k1<|angles :=
                 (write RIGHT_ANKLE_ROLL (angle_neg rr1)
                  (write RIGHT_ANKLE_PITCH (make_degree 0)
                  (write RIGHT_LOWER_KNEE (angle_neg rk1)
                  (write RIGHT_UPPER_KNEE (angle_neg rh1)
                  (write RIGHT_HIP_PITCH rh1
                  (write RIGHT_HIP_ROLL rr1
                  (write RIGHT_HIP_YAW (yaw right1)
                  (write LEFT_ANKLE_ROLL (angle_neg lr1)
                  (write LEFT_ANKLE_PITCH (make_degree 0)
                  (write LEFT_LOWER_KNEE (angle_neg lk1)
                  (write LEFT_UPPER_KNEE lh1
                  (write LEFT_HIP_PITCH (angle_neg lh1)
                  (write LEFT_HIP_ROLL lr1
                  (write LEFT_HIP_YAW (yaw left1)
                     (angles k1)))))))))))))))|>)
    /\ solve_inverse_kinematics k2 left2 right2
       = Done (k2<|angles :=
                    (write RIGHT_ANKLE_ROLL (angle_neg rr2)
                     (write RIGHT_ANKLE_PITCH (make_degree 0)
                     (write RIGHT_LOWER_KNEE (angle_neg rk2)
                     (write RIGHT_UPPER_KNEE (angle_neg rh2)
                     (write RIGHT_HIP_PITCH rh2
                     (write RIGHT_HIP_ROLL rr2
                     (write RIGHT_HIP_YAW (yaw right2)
                     (write LEFT_ANKLE_ROLL (angle_neg lr2)
                     (write LEFT_ANKLE_PITCH (make_degree 0)
                     (write LEFT_LOWER_KNEE (angle_neg lk2)
                     (write LEFT_UPPER_KNEE lh2
                     (write LEFT_HIP_PITCH (angle_neg lh2)
                     (write LEFT_HIP_ROLL lr2
                     (write LEFT_HIP_YAW (yaw left2)
                        (angles k2)))))))))))))))|>)
    /\ (left1 = left2 -> lr1 = lr2 /\ lh1 = lh2 /\ lk1 = lk2)
    /\ (right1 = right2 -> rr1 = rr2 /\ rh1 = rh2 /\ rk1 = rk2).
Proof.
destruct k1 as [a1 c1 n1 t1 x1 y1 table1], k2 as [a2 c2 n2 t2 x2 y2 table2].
cbn [ankle_length calf_length knee_length thigh_length x_offset y_offset angles].
intros -> -> -> -> -> ->.
unfold solve_inverse_kinematics. cbv zeta.
do 12 eexists.
split; [reflexivity|]. split; [reflexivity|].
split; intros ->; repeat split; reflexivity.
Qed.

(** X1.  The solver couples the joints of a leg: the hip pitch is the negated
    upper knee on the left and the upper knee the negated hip pitch on the
    right, each ankle roll is the negated hip roll, each ankle pitch is 0
    degrees and each hip yaw is the yaw of the target.  The identifiers
    of the leg joints are told apart. *)
Theorem solve_inverse_kinematics_couples_joints k left_foot right_foot k' :
  NoDup leg_joints ->
  solve_inverse_kinematics k left_foot right_foot = Done k' ->
  angles k' LEFT_HIP_YAW = yaw left_foot
  /\ angles k' RIGHT_HIP_YAW = yaw right_foot
  /\ angles k' LEFT_HIP_PITCH = angle_neg (angles k' LEFT_UPPER_KNEE)
  /\ angles k' RIGHT_UPPER_KNEE = angle_neg (angles k' RIGHT_HIP_PITCH)
  /\ angles k' LEFT_ANKLE_ROLL = angle_neg (angles k' LEFT_HIP_ROLL)
  /\ angles k' RIGHT_ANKLE_ROLL = angle_neg (angles k' RIGHT_HIP_ROLL)
  /\ angles k' LEFT_ANKLE_PITCH = make_degree 0
  /\ angles k' RIGHT_ANKLE_PITCH = make_degree 0.
Proof.
intros Hnd H.
destruct (solve_inverse_kinematics_shape k k left_foot right_foot
            left_foot right_foot)
  as (lr & lh & lk & rr & rh & rk & _ & _ & _ & _ & _ & _ & E & _);
  try reflexivity.
rewrite E in H. injection H as <-. clear E.
unfold leg_joints in Hnd. distinct_ids Hnd.
record_simpl. unfold write.
repeat split; repeat decide_write; reflexivity.
Qed.

(** X2.  The solver keeps no history: the geometry is left as it was, and the
    leg entries of the table it leaves depend on the geometry and the two
    targets only, not on the table it found.  Solving again for the same
    targets changes no entry. *)
Theorem solve_inverse_kinematics_forgets_table k1 k2 left_foot right_foot k1' :
  ankle_length k1 = ankle_length k2 -> calf_length k1 = calf_length k2 ->
  knee_length k1 = knee_length k2 -> thigh_length k1 = thigh_length k2 ->
  x_offset k1 = x_offset k2 -> y_offset k1 = y_offset k2 ->
  solve_inverse_kinematics k1 left_foot right_foot = Done k1' ->
  (ankle_length k1' = ankle_length k1 /\ calf_length k1' = calf_length k1
   /\ knee_length k1' = knee_length k1 /\ thigh_length k1' = thigh_length k1
   /\ x_offset k1' = x_offset k1 /\ y_offset k1' = y_offset k1)
  /\ (exists k2',
        solve_inverse_kinematics k2 left_foot right_foot = Done k2'
        /\ forall id, In id leg_joints -> angles k2' id = angles k1' id)
  /\ (exists k1'',
        solve_inverse_kinematics k1' left_foot right_foot = Done k1''
        /\ forall id, angles k1'' id = angles k1' id).
Proof.
intros Ha Hc Hn Ht Hx Hy H.
destruct (solve_inverse_kinematics_shape k1 k2 left_foot right_foot
            left_foot right_foot Ha Hc Hn Ht Hx Hy)
  as (lr & lh & lk & rr & rh & rk & lr2 & lh2 & lk2 & rr2 & rh2 & rk2
      & E1 & E2 & Hl & Hr).
destruct (Hl eq_refl) as (<- & <- & <-). destruct (Hr eq_refl) as (<- & <- & <-).
assert (G : ankle_length k1' = ankle_length k1 /\ calf_length k1' = calf_length k1
            /\ knee_length k1' = knee_length k1 /\ thigh_length k1' = thigh_length k1
            /\ x_offset k1' = x_offset k1 /\ y_offset k1' = y_offset k1).
{ rewrite E1 in H. injection H as <-. record_simpl. repeat split; reflexivity. }
split; [exact G|]. split.
- eexists. split; [exact E2|].
  rewrite E1 in H. injection H as <-.
  intros id Hid. record_simpl. unfold write. repeat case_write id.
  unfold leg_joints in Hid. cbn [In] in Hid. exfalso. intuition congruence.
- clear E2.
  destruct G as (Ga & Gc & Gn & Gt & Gx & Gy).
  destruct (solve_inverse_kinematics_shape k1' k1 left_foot right_foot
              left_foot right_foot Ga Gc Gn Gt Gx Gy)
    as (lr3 & lh3 & lk3 & rr3 & rh3 & rk3 & lr4 & lh4 & lk4 & rr4 & rh4 & rk4
        & E3 & E4 & Hl' & Hr').
  destruct (Hl' eq_refl) as (<- & <- & <-).
  destruct (Hr' eq_refl) as (<- & <- & <-).
  eexists. split; [exact E3|].
  rewrite E4 in H. injection H as H.
  intros id. rewrite <- H. record_simpl.
  unfold write. repeat case_write id.
  reflexivity.
Qed.

(** X3.  The two legs are solved apart: with identifiers that are told apart,
    the entries of the left leg do not depend on the target of the right
    foot, nor those of the right leg on the target of the left foot. *)
Theorem solve_inverse_kinematics_legs_apart
  k left_foot right_foot left_foot' right_foot' k1 k2 k3 :
  NoDup leg_joints ->
  solve_inverse_kinematics k left_foot right_foot = Done k1 ->
  solve_inverse_kinematics k left_foot right_foot' = Done k2 ->
  solve_inverse_kinematics k left_foot' right_foot = Done k3 ->
  (forall id,
     In id [ LEFT_HIP_YAW; LEFT_HIP_ROLL; LEFT_HIP_PITCH; LEFT_UPPER_KNEE;
             LEFT_LOWER_KNEE; LEFT_ANKLE_PITCH; LEFT_ANKLE_ROLL ] ->
     angles k2 id = angles k1 id)
  /\ (forall id,
        In id [ RIGHT_HIP_YAW; RIGHT_HIP_ROLL; RIGHT_HIP_PITCH; RIGHT_UPPER_KNEE;
                RIGHT_LOWER_KNEE; RIGHT_ANKLE_PITCH; RIGHT_ANKLE_ROLL ] ->
        angles k3 id = angles k1 id).
Proof.
intros Hnd H1 H2 H3.
unfold leg_joints in Hnd. distinct_ids Hnd.
split.
- destruct (solve_inverse_kinematics_shape k k left_foot right_foot
              left_foot right_foot')
    as (lr & lh & lk & rr & rh & rk & lr2 & lh2 & lk2 & rr2 & rh2 & rk2
        & E1 & E2 & Hl & _); try reflexivity.
  rewrite E1 in H1. injection H1 as <-. rewrite E2 in H2. injection H2 as <-.
  destruct (Hl eq_refl) as (<- & <- & <-).
  intros id Hid. cbn [In] in Hid. record_simpl. unfold write.
  repeat (destruct Hid as [<-|Hid]; [repeat decide_write; reflexivity|]).
  contradiction.
- destruct (solve_inverse_kinematics_shape k k left_foot right_foot
              left_foot' right_foot)
    as (lr & lh & lk & rr & rh & rk & lr2 & lh2 & lk2 & rr2 & rh2 & rk2
        & E1 & E2 & _ & Hr); try reflexivity.
  rewrite E1 in H1. injection H1 as <-. rewrite E2 in H3. injection H3 as <-.
  destruct (Hr eq_refl) as (<- & <- & <-).
  intros id Hid. cbn [In] in Hid. record_simpl. unfold write.
  repeat (destruct Hid as [<-|Hid]; [repeat decide_write; reflexivity|]).
  contradiction.
Qed.

End SolverFacts.

Section ConfigurationFacts.

Context {K : Keisan} {T : Tachimawari} {I : Internals} {C : Collaborators}.

(** ** Kinematics::set_config, continued *)

(** [Kinematics::set_config] returns, the table of angles untouched. *)
Lemma Kinematics_set_config_done (kinematic_data : json) (k : Kinematics) :
  exists k',
    Kinematics_set_config kinematic_data k = Done k' /\ angles k' = angles k.
Proof.
unfold Kinematics_set_config.
destruct k. cbv zeta.
destruct (Json.section_of kinematic_data "leg") eqn:Eleg;
  destruct (Json.section_of kinematic_data "offset") eqn:Eoffset;
  read_group "leg"; read_group "offset";
  (eexists; split; [reflexivity|]); reflexivity.
Qed.

(** X4.  [Kinematics::set_config] stores each length and each hip offset that
    its section holds as a number, leaves the others at their previous
    value, and does not touch the table of angles. *)
Theorem Kinematics_set_config_stores_fields (kinematic_data : json) (k : Kinematics) :
  exists k',
    Kinematics_set_config kinematic_data k = Done k'
    /\ ankle_length k'
       = Json.configured kinematic_data "leg" "ankle_length" (ankle_length k)
    /\ calf_length k'
       = Json.configured kinematic_data "leg" "calf_length" (calf_length k)
    /\ knee_length k'
       = Json.configured kinematic_data "leg" "knee_length" (knee_length k)
    /\ thigh_length k'
       = Json.configured kinematic_data "leg" "thigh_length" (thigh_length k)
    /\ x_offset k' = Json.configured kinematic_data "offset" "x" (x_offset k)
    /\ y_offset k' = Json.configured kinematic_data "offset" "y" (y_offset k)
    /\ angles k' = angles k.
Proof.
unfold Kinematics_set_config, Json.configured.
destruct k. cbv zeta.
read_group "leg"; read_group "offset";
  (eexists; split; [reflexivity|]); record_simpl; repeat split; reflexivity.
Qed.

(** ** WalkingManager::set_config, continued *)

(** A field that is a number is read without regard to what the member
    held. *)
Lemma read_double_number section key val val' :
  Json.has_number section key = true ->
  Json.read_double section key val = Json.read_double section key val'.
Proof.
unfold Json.has_number, Json.read_double, Json.assign_double.
destruct (Json.find section key) as [[]|]; (discriminate || reflexivity).
Qed.

(** The whole of [set_config]: the controller [wm1] the four groups leave,
    and the outcome.  [wm1] differs from the controller before the call in
    the ten numbers of the document and in [max_rotation]. *)
Lemma set_config_cases max_rotation_double walking_data kinematic_data wm :
  exists wm1 k',
    Kinematics_set_config kinematic_data (kinematics wm) = Done k'
    /\ set_config max_rotation_double walking_data kinematic_data wm
       = (if Json.walking_config_ok walking_data
          then
            Done (wm1<|foot_step_planner :=
                        planner_set_parameters (foot_step_planner wm)
                          (max_stride wm1) (max_rotation wm1) (plan_period wm1)
                          (foot_y_offset wm1)|>
                     <|lipm :=
                        lipm_set_parameters (lipm wm) (com_height wm1)
                          (time_step wm) (com_period wm1)|>
                     <|kinematics := k'|>)
          else Thrown "Failed to load config file `walking.json`" wm1)
    /\ (dsp_duration wm1
        = Json.configured walking_data "timing" "dsp_duration" (dsp_duration wm)
        /\ plan_period wm1
           = Json.configured walking_data "timing" "plan_period" (plan_period wm)
        /\ com_period wm1
           = Json.configured walking_data "timing" "com_period" (com_period wm)
        /\ step_frames wm1
           = Json.configured walking_data "timing" "step_frames" (step_frames wm)
        /\ com_height wm1
           = Json.configured walking_data "posture" "com_height" (com_height wm)
        /\ foot_height wm1
           = Json.configured walking_data "posture" "foot_height" (foot_height wm)
        /\ feet_lateral wm1
           = Json.configured walking_data "posture" "feet_lateral" (feet_lateral wm)
        /\ foot_y_offset wm1
           = Json.configured walking_data "offset" "foot_y_offset" (foot_y_offset wm)
        /\ x (max_stride wm1)
           = Json.configured walking_data "stride" "max_x" (x (max_stride wm))
        /\ y (max_stride wm1)
           = Json.configured walking_data "stride" "max_y" (y (max_stride wm)))
    /\ max_rotation wm1
       = match Json.section_of walking_data "stride" with
         | Some stride_section =>
             make_degree
               (Json.read_double stride_section "max_a" max_rotation_double)
         | None => max_rotation wm
         end
    /\ (same_feet wm wm1 /\ same_targets wm wm1 /\ same_output wm wm1
        /\ lipm wm1 = lipm wm /\ foot_step_planner wm1 = foot_step_planner wm
        /\ status wm1 = status wm /\ initialized wm1 = initialized wm
        /\ next_support wm1 = next_support wm
        /\ walk_rotation wm1 = walk_rotation wm /\ time_step wm1 = time_step wm
        /\ initial_left_foot wm1 = initial_left_foot wm
        /\ initial_right_foot wm1 = initial_right_foot wm).
Proof.
destruct (Kinematics_set_config_done kinematic_data (kinematics wm))
  as (k' & Ek & _).
unfold set_config.
unfold Json.walking_config_ok, Json.group_ok, Json.configured.
unfold same_feet, same_targets, same_output.
destruct wm. record_simpl.
cbv zeta.
read_group "timing"; read_group "posture"; read_group "offset";
  read_group "stride".
all: match goal with
     | |- context [Thrown _ ?W] => exists W, k'
     end.
all: (split; [exact Ek|]).
all: (split; [|record_simpl; repeat split; reflexivity]).
all: record_simpl; rewrite ?Ek; cbn [forallb].
all: repeat first
       [ rewrite andb_false_r | rewrite andb_false_l
       | rewrite andb_true_l | rewrite andb_true_r | rewrite andb_assoc ].
all: cbn [negb].
all: try match goal with
         | |- context [negb ?f] => destruct f
         end; cbn [negb]; reflexivity.
Qed.

(** X5.  [set_config] returns exactly when the walking document is in order,
    and throws otherwise.  The kinematic document has no part in it: it is
    read after the test, by a function that raises nothing. *)
Theorem set_config_returns_iff_walking_ok
  max_rotation_double walking_data kinematic_data wm :
  is_done (set_config max_rotation_double walking_data kinematic_data wm)
  = Json.walking_config_ok walking_data
  /\ set_config max_rotation_double walking_data kinematic_data wm <> Undefined.
Proof.
destruct (set_config_cases max_rotation_double walking_data kinematic_data wm)
  as (wm1 & k' & _ & E & _).
rewrite E. destruct (Json.walking_config_ok walking_data); split;
  first [reflexivity | discriminate].
Qed.

(** A group in order holds each of its fields as a number. *)
Lemma group_ok_section data name keys :
  Json.group_ok data name keys = true ->
  exists section,
    Json.section_of data name = Some section
    /\ forall key, In key keys -> Json.has_number section key = true.
Proof.
unfold Json.group_ok.
destruct (Json.section_of data name) as [section|]; [|discriminate].
intros H. exists section. split; [reflexivity|].
now apply forallb_forall.
Qed.

(** In a group in order a member takes the number of the document. *)
Lemma configured_number data name keys key val val' :
  Json.group_ok data name keys = true -> In key keys ->
  Json.configured data name key val = Json.configured data name key val'.
Proof.
intros H Hin. destruct (group_ok_section _ _ _ H) as (section & E & Hnum).
unfold Json.configured. rewrite E. apply read_double_number. now apply Hnum.
Qed.

(** X6.  On a walking document in order [set_config] returns with the eleven
    parameters at the numbers of the document, whatever they held before,
    and the planner, the trajectory generator and the solver have been
    configured from the controller before the call with the numbers just
    read. *)
Theorem set_config_applies_document
  max_rotation_double walking_data kinematic_data wm :
  Json.walking_config_ok walking_data = true ->
  exists wm' k',
    set_config max_rotation_double walking_data kinematic_data wm = Done wm'
    /\ (forall old,
          dsp_duration wm' = Json.configured walking_data "timing" "dsp_duration" old
          /\ plan_period wm' = Json.configured walking_data "timing" "plan_period" old
          /\ com_period wm' = Json.configured walking_data "timing" "com_period" old
          /\ step_frames wm' = Json.configured walking_data "timing" "step_frames" old
          /\ com_height wm' = Json.configured walking_data "posture" "com_height" old
          /\ foot_height wm' = Json.configured walking_data "posture" "foot_height" old
          /\ feet_lateral wm'
             = Json.configured walking_data "posture" "feet_lateral" old
          /\ foot_y_offset wm'
             = Json.configured walking_data "offset" "foot_y_offset" old
          /\ x (max_stride wm') = Json.configured walking_data "stride" "max_x" old
          /\ y (max_stride wm') = Json.configured walking_data "stride" "max_y" old
          /\ max_rotation wm'
             = make_degree (Json.configured walking_data "stride" "max_a" old))
    /\ foot_step_planner wm'
       = planner_set_parameters (foot_step_planner wm) (max_stride wm')
           (max_rotation wm') (plan_period wm') (foot_y_offset wm')
    /\ lipm wm'
       = lipm_set_parameters (lipm wm) (com_height wm') (time_step wm')
           (com_period wm')
    /\ Kinematics_set_config kinematic_data (kinematics wm) = Done k'
    /\ kinematics wm' = k'.
Proof.
intros Hok.
destruct (set_config_cases max_rotation_double walking_data kinematic_data wm)
  as (wm1 & k' & Ek & E & F & Hrot & G).
rewrite Hok in E.
unfold Json.walking_config_ok in Hok.
apply andb_prop in Hok. destruct Hok as [Hok Hstride].
apply andb_prop in Hok. destruct Hok as [Hok Hoffset].
apply andb_prop in Hok. destruct Hok as [Htiming Hposture].
destruct F as (F1 & F2 & F3 & F4 & F5 & F6 & F7 & F8 & F9 & F10).
destruct G as (_ & _ & _ & _ & _ & _ & _ & _ & _ & Hts & _).
eexists. exists k'. split; [exact E|].
record_simpl. rewrite Hts.
split; [|repeat split; [exact Ek]].
intros old.
rewrite F1, F2, F3, F4, F5, F6, F7, F8, F9, F10, Hrot.
repeat split;
  try (eapply configured_number; [eassumption | cbn [In]; tauto]).
destruct (group_ok_section _ _ _ Hstride) as (section & Es & Hnum).
unfold Json.configured. rewrite Es. f_equal.
apply read_double_number. apply Hnum. cbn [In]. tauto.
Qed.

(** X7.  Whether it returns or throws, [set_config] leaves the gait where it
    was: the status, the support side, the accumulated rotation, the tick
    length, the lifts, offsets, targets and deltas of both feet and the
    published joints are those of the controller before the call. *)
Theorem set_config_keeps_gait
  max_rotation_double walking_data kinematic_data wm :
  match set_config max_rotation_double walking_data kinematic_data wm with
  | Done wm' | Thrown _ wm' =>
      status wm' = status wm /\ initialized wm' = initialized wm
      /\ next_support wm' = next_support wm
      /\ walk_rotation wm' = walk_rotation wm
      /\ time_step wm' = time_step wm
      /\ same_feet wm wm' /\ same_targets wm wm'
      /\ joints wm' = joints wm
      /\ initial_left_foot wm' = initial_left_foot wm
      /\ initial_right_foot wm' = initial_right_foot wm
  | Undefined => False
  end.
Proof.
destruct (set_config_cases max_rotation_double walking_data kinematic_data wm)
  as (wm1 & k' & _ & E & _ & _ & G).
destruct G as (Hf & Ht & (_ & Hj) & _ & _ & Hs & Hi & Hn & Hw & Hts & Hl & Hr).
rewrite E. unfold same_feet, same_targets in *.
destruct (Json.walking_config_ok walking_data); record_simpl; tauto.
Qed.

(** X8.  The stride group read without a number under [max_a]: [set_config]
    throws, and [max_rotation] has been overwritten with the angle made
    of the local [max_rotation_double] as it was declared, without a
    value. *)
Theorem set_config_stride_without_max_a
  max_rotation_double walking_data kinematic_data wm stride_section :
  Json.section_of walking_data "stride" = Some stride_section ->
  Json.has_number stride_section "max_a" = false ->
  exists what wm',
    set_config max_rotation_double walking_data kinematic_data wm
    = Thrown what wm'
    /\ max_rotation wm' = make_degree max_rotation_double.
Proof.
intros Hs Ha.
destruct (set_config_cases max_rotation_double walking_data kinematic_data wm)
  as (wm1 & k' & _ & E & _ & Hrot & _).
assert (Hbad : Json.walking_config_ok walking_data = false).
{ unfold Json.walking_config_ok, Json.group_ok at 4. rewrite Hs.
  cbn [forallb]. rewrite Ha.
  now rewrite !andb_false_r. }
rewrite Hbad in E. rewrite Hs in Hrot.
do 2 eexists. split; [exact E|].
rewrite Hrot. f_equal. now apply JsonFacts.assign_double_keeps.
Qed.

End ConfigurationFacts.

Section GoalFacts.

Context {K : Keisan} {T : Tachimawari} {I : Internals} {C : Collaborators}.

(** ** set_goal and stop, continued *)

(** X9.  A goal that is not the stop request is handed to the planner with the
    status and the support side the controller had before the call.  The
    planner starts from the origin, facing 0 degrees, unless more than two
    footsteps are queued: then it starts from [foot_steps[1]], shifted
    sideways once the robot walks, by [- foot_y_offset] when the next
    support is the left foot and by [+ foot_y_offset] otherwise.  The call
    leaves the status at WALKING and the queue as the planner made it. *)
Theorem set_goal_plans_from_second_footstep
  goal_position goal_orientation wm wm' :
  is_stop_request goal_position = false ->
  set_goal goal_position goal_orientation wm = Done wm' ->
  status wm' = WALKING /\ initialized wm' = true
  /\ foot_step_planner wm'
     = match foot_steps (foot_step_planner wm) with
       | _ :: step1 :: _ :: _ =>
           plan (foot_step_planner wm) goal_position goal_orientation
             {| x := x (position step1);
                y := y (position step1)
                     + match status wm, next_support wm with
                       | START, _ => 0
                       | WALKING, LEFT_FOOT => - foot_y_offset wm
                       | WALKING, _ => foot_y_offset wm
                       end |}
             (rotation step1) (next_support wm) (status wm)
       | _ =>
           plan (foot_step_planner wm) goal_position goal_orientation
             {| x := 0; y := 0 |} (make_degree 0) (next_support wm) (status wm)
       end.
Proof.
intros Hgo H. unfold set_goal in H.
destruct (set_goal_target_keeps _ _ H) as (Hp & Hs & Hi).
rewrite Hp, Hs, Hi. clear H Hp Hs Hi.
unfold set_goal_plan. rewrite Hgo. cbv zeta.
destruct (initialized wm) eqn:Hinit; record_simpl.
all: destruct (foot_steps (foot_step_planner wm))
       as [|step0 [|step1 [|step2 rest]]] eqn:E;
  cbv beta iota zeta; record_simpl; rewrite ?Hinit;
  try (repeat split; reflexivity).
all: destruct (status wm), (next_support wm); cbn [Status_eqb Support_eqb negb];
  repeat split; reflexivity.
Qed.

(** X10.  Every call of [set_goal] that returns has handed the queue it leaves
    to the trajectory generator, from the time of the first queued
    footstep, and has set the accumulated walk rotation back to the
    rotation of that footstep. *)
Theorem set_goal_regenerates_trajectory goal_position goal_orientation wm wm' :
  set_goal goal_position goal_orientation wm = Done wm' ->
  exists step0,
    nth_error (foot_steps (foot_step_planner wm')) 0 = Some step0
    /\ lipm wm'
       = lipm_update (lipm wm) (time step0) (foot_steps (foot_step_planner wm'))
    /\ walk_rotation wm' = rotation step0.
Proof.
intros H. unfold set_goal in H.
destruct (set_goal_target_keeps _ _ H) as (Hp & _).
destruct (set_goal_plan_keeps goal_position goal_orientation wm)
  as (_ & _ & _ & _ & _ & Hl).
cbv zeta in Hl. rewrite Hp.
set (wm1 := set_goal_plan goal_position goal_orientation wm) in *.
rewrite <- Hl. clearbody wm1. clear Hp Hl.
unfold set_goal_target in H. cbv zeta in H.
destruct (nth_error (foot_steps (foot_step_planner wm1)) 0) as [step0|]; [|discriminate].
exists step0. split; [reflexivity|].
destruct (support_foot step0);
  try (destruct (nth_error (foot_steps (foot_step_planner wm1)) 1) as [step1|];
       [|discriminate]);
  try destruct (Support_eqb (support_foot step1) BOTH_FEET);
  injection H as <-; record_simpl; split; reflexivity.
Qed.

(** X11.  [set_goal] raises nothing, and a call that returns has moved no foot:
    the configured parameters, the lifts and offsets of both feet, the
    solver object and the published joints are as before, and the
    controller is initialized. *)
Theorem set_goal_moves_no_foot goal_position goal_orientation wm :
  match set_goal goal_position goal_orientation wm with
  | Done wm' =>
      same_config wm wm' /\ same_feet wm wm' /\ same_output wm wm'
      /\ initialized wm' = true
  | Thrown _ _ => False
  | Undefined => True
  end.
Proof.
destruct (set_goal goal_position goal_orientation wm) as [wm'|what wm'|] eqn:E.
- now apply (set_goal_keeps _ _ _ _ E).
- now apply set_goal_not_thrown in E.
- constructor.
Qed.

(** One call of [stop]: it returns on a queue of two footsteps or more,
    and a call that returns has popped the front footstep of a queue of
    more than three and set the status to START on a queue of at most
    four. *)
Lemma stop_step wm :
  let steps := foot_steps (foot_step_planner wm) in
  ((2 <= List.length steps)%nat -> exists wm', stop wm = Done wm')
  /\ forall wm',
       stop wm = Done wm' ->
       foot_steps (foot_step_planner wm')
       = (if (3 <? List.length steps)%nat then tl steps else steps)
       /\ status wm'
          = (if (List.length steps <=? 4)%nat then START else status wm).
Proof.
intros steps. unfold stop, set_goal.
destruct (set_goal_plan_stop stop_position (make_degree 0) wm eq_refl)
  as (Hq & Hst & _).
cbv zeta in Hq, Hst. fold steps in Hq, Hst.
set (wm1 := set_goal_plan stop_position (make_degree 0) wm) in *.
split.
- intros Hlen.
  assert (Hlen1 : (2 <= List.length (foot_steps (foot_step_planner wm1)))%nat).
  { rewrite Hq. destruct (Nat.ltb_spec 3 (List.length steps)).
    - destruct steps as [|a [|b [|c l]]]; cbn in *; lia.
    - exact Hlen. }
  destruct (foot_steps (foot_step_planner wm1)) as [|step0 [|step1 rest]] eqn:E1;
    cbn in Hlen1; try lia.
  apply (set_goal_target_returns wm1 step0 step1); rewrite E1; reflexivity.
- intros wm' H.
  destruct (set_goal_target_keeps wm1 wm' H) as (Hp & Hs & _).
  rewrite Hp, Hs. split; assumption.
Qed.

(** X12.  Repeated stop requests drain the queue down to three footsteps and no
    further: [n] calls that return have dropped the first [n] footsteps, or
    all but the last three when fewer than [n + 3] were queued (nothing of a
    queue of three or less).  The status is START as soon as a call found at
    most four footsteps, and is not touched before.  On a queue of two
    footsteps or more every call returns. *)
Theorem stops_drain_queue n : forall wm,
  let steps := foot_steps (foot_step_planner wm) in
  ((2 <= List.length steps)%nat -> exists wm', stops n wm = Done wm')
  /\ forall wm',
       stops n wm = Done wm' ->
       foot_steps (foot_step_planner wm')
       = skipn (Nat.min n (List.length steps - 3)) steps
       /\ ((0 < n)%nat -> (List.length steps <= n + 3)%nat -> status wm' = START)
       /\ ((n + 3 < List.length steps)%nat -> status wm' = status wm).
Proof.
induction n as [|n IH]; intros wm steps.
- split; [intros _; now exists wm|].
  intros wm' H. injection H as <-. fold steps.
  split; [reflexivity|]. split; [lia|reflexivity].
- cbn [stops].
  destruct (stop_step wm) as (Hret & Hdone). cbv zeta in Hret, Hdone.
  fold steps in Hret, Hdone.
  split.
  + intros Hlen. destruct (Hret Hlen) as [wm1 E1]. rewrite E1.
    destruct (Hdone wm1 E1) as (Hq & _).
    apply (IH wm1). rewrite Hq.
    destruct (Nat.ltb_spec 3 (List.length steps)); [|exact Hlen].
    destruct steps as [|a [|b [|c l]]]; cbn in *; lia.
  + intros wm' H.
    destruct (stop wm) as [wm1| |] eqn:E1; try discriminate.
    destruct (Hdone wm1 eq_refl) as (Hq & Hst).
    destruct (proj2 (IH wm1) wm' H) as (Hq' & Hstart & Hkeep).
    rewrite Hq in Hq', Hstart, Hkeep. rewrite Hq'.
    destruct (Nat.ltb_spec 3 (List.length steps)) as [Hlong|Hshort].
    * assert (Htl : List.length (tl steps) = (List.length steps - 1)%nat)
        by (destruct steps; cbn; lia).
      rewrite Htl in *.
      split; [|split].
      -- destruct steps as [|a l]; [cbn in Hlong; lia|].
         cbn [tl List.length] in *.
         replace (Nat.min (S n) (S (List.length l) - 3))
           with (S (Nat.min n (S (List.length l) - 1 - 3))) by lia.
         reflexivity.
      -- intros _ Hle.
         destruct n as [|n'].
         ++ injection H as <-. rewrite Hst.
            destruct (Nat.leb_spec (List.length steps) 4); [reflexivity|lia].
         ++ apply Hstart; lia.
      -- intros Hgt. rewrite Hkeep by lia. rewrite Hst.
         destruct (Nat.leb_spec (List.length steps) 4); [lia|reflexivity].
    * replace (Nat.min (S n) (List.length steps - 3)) with 0%nat by lia.
      replace (Nat.min n (List.length steps - 3)) with 0%nat by lia.
      split; [reflexivity|]. split; [|lia].
      intros _ _.
      destruct n as [|n'].
      -- injection H as <-. rewrite Hst.
         destruct (Nat.leb_spec (List.length steps) 4); [reflexivity|lia].
      -- apply Hstart; lia.
Qed.

End GoalFacts.

Section TickFacts.

Context {K : Keisan} {T : Tachimawari} {I : Internals} {C : Collaborators}.

(** ** update_joints, continued *)

Lemma update_joints_swing_walk_rotation wm step0 step1 :
  walk_rotation (update_joints_swing wm step0 step1)
  = angle_add (walk_rotation wm)
      (angle_div (angle_sub (rotation step1) (rotation step0))
         (step_period_of wm step0 step1)).
Proof.
unfold update_joints_swing. cbv zeta.
repeat (record_simpl; break_match); record_simpl; reflexivity.
Qed.

Lemma update_joints_solve_walk_rotation solver wm com wm' :
  update_joints_solve solver wm com = Done wm' ->
  walk_rotation wm' = walk_rotation wm.
Proof.
unfold update_joints_solve. cbv zeta.
destruct (solver (kinematics wm) (left_foot_of wm com) (right_foot_of wm com))
  as [k|what k|]; [| |discriminate];
  intros H; injection H as <-; reflexivity.
Qed.

Lemma publish_ids table joints :
  map get_id (publish table joints) = map get_id joints.
Proof.
unfold publish. rewrite map_map. reflexivity.
Qed.

(** A tick of an initialized controller that returns: the state [wm0] it
    worked on is the state it started in when the trajectory held a
    sample, and the state [stop] made of it when the trajectory was empty.
    The tick took the first sample of [wm0], read the first two footsteps,
    and changed nothing else of the walk than the accumulated rotation. *)
Lemma update_joints_with_tick solver wm wm' :
  initialized wm = true ->
  update_joints_with solver wm = Done wm' ->
  exists wm0 com rest step0 step1,
    ((com_trajectory (lipm wm) <> [] /\ wm0 = wm)
     \/ (com_trajectory (lipm wm) = [] /\ stop wm = Done wm0))
    /\ com_trajectory (lipm wm0) = com :: rest
    /\ nth_error (foot_steps (foot_step_planner wm0)) 0 = Some step0
    /\ nth_error (foot_steps (foot_step_planner wm0)) 1 = Some step1
    /\ lipm wm' = (lipm wm0)<|com_trajectory := rest|>
    /\ foot_step_planner wm' = foot_step_planner wm0
    /\ status wm' = status wm0
    /\ next_support wm' = next_support wm0
    /\ initialized wm' = true
    /\ same_config wm0 wm' /\ same_targets wm0 wm'
    /\ walk_rotation wm'
       = angle_add (walk_rotation wm0)
           (angle_div (angle_sub (rotation step1) (rotation step0))
              (step_period_of wm0 step0 step1))
    /\ joints wm' = publish (angles (kinematics wm')) (joints wm0).
Proof.
intros Hi H.
assert (Hcases :
  exists wm0 com rest step0 step1,
    ((com_trajectory (lipm wm) <> [] /\ wm0 = wm)
     \/ (com_trajectory (lipm wm) = [] /\ stop wm = Done wm0))
    /\ initialized wm0 = true
    /\ com_trajectory (lipm wm0) = com :: rest
    /\ nth_error (foot_steps (foot_step_planner wm0)) 0 = Some step0
    /\ nth_error (foot_steps (foot_step_planner wm0)) 1 = Some step1
    /\ update_joints_solve solver
         (update_joints_swing
            (wm0<|lipm := (lipm wm0)<|com_trajectory := rest|>|>) step0 step1)
         com
       = Done wm').
{ revert H. unfold update_joints_with, get_com_trajectory, lipm_pop_front.
  rewrite Hi. cbn [negb].
  destruct (com_trajectory (lipm wm)) as [|com rest] eqn:Ht.
  - destruct (stop wm) as [wm0|what wm0|] eqn:Hstop; try discriminate.
    destruct (com_trajectory (lipm wm0)) as [|com rest] eqn:Ht0; [discriminate|].
    record_simpl.
    destruct (nth_error (foot_steps (foot_step_planner wm0)) 1) as [step1|] eqn:H1;
      [|discriminate].
    destruct (nth_error (foot_steps (foot_step_planner wm0)) 0) as [step0|] eqn:H0;
      [|discriminate].
    intros H. exists wm0, com, rest, step0, step1.
    destruct (set_goal_keeps _ _ _ _ Hstop) as (_ & _ & _ & Hi0).
    auto 8.
  - cbv beta iota. rewrite Ht. record_simpl.
    destruct (nth_error (foot_steps (foot_step_planner wm)) 1) as [step1|] eqn:H1;
      [|discriminate].
    destruct (nth_error (foot_steps (foot_step_planner wm)) 0) as [step0|] eqn:H0;
      [|discriminate].
    intros H. exists wm, com, rest, step0, step1.
    split; [left; split; [discriminate|reflexivity]|]. auto 6. }
destruct Hcases as (wm0 & com & rest & step0 & step1 & Hwm0 & Hi0 & Ht & H0 & H1 & Hs).
exists wm0, com, rest, step0, step1.
split; [exact Hwm0|]. split; [exact Ht|]. split; [exact H0|]. split; [exact H1|].
set (wp := wm0<|lipm := (lipm wm0)<|com_trajectory := rest|>|>) in *.
destruct (popped_keeps wm0 rest) as (Pc & _ & Pt & (_ & Pj) & Pp & _ & Psp & _).
fold wp in Pc, Pt, Pj, Pp, Psp.
destruct (update_joints_swing_keeps wp step0 step1)
  as (Sc & St & (_ & Sj) & Sl & Sp & Sst & Sin & Sns).
cbv zeta in Sc, St, Sj, Sl, Sp, Sst, Sin, Sns.
pose proof (update_joints_swing_walk_rotation wp step0 step1) as Sw.
pose proof (update_joints_solve_walk_rotation _ _ _ _ Hs) as Vw.
destruct (update_joints_solve_spec _ _ _ _ Hs)
  as (_ & Vj & Vc & _ & Vt & Vl & Vp & Vst & Vin & Vns).
rewrite Vl, Sl, Vp, Sp, Pp, Vst, Sst, Vns, Sns, Vin, Sin, Vw, Sw, Psp, Vj, Sj, Pj.
unfold same_config, same_targets in *.
repeat match goal with H : _ /\ _ |- _ => destruct H end.
repeat split; try reflexivity; try assumption; try congruence.
Qed.

(** X13.  Until [set_goal] or [stop] is called, [update_joints] does nothing:
    any number of ticks of a controller that is not initialized returns
    it as it is. *)
Theorem ticks_before_first_goal n wm :
  initialized wm = false -> ticks n wm = Done wm.
Proof.
intros Hi. induction n as [|n IH]; [reflexivity|].
cbn [ticks]. unfold update_joints, update_joints_with. rewrite Hi.
cbn [negb]. exact IH.
Qed.

(** X14.  A tick that finds a sample in the trajectory takes exactly that one,
    first in first out, and leaves the footstep queue, the status, the
    support side, the configured parameters and the targets and deltas of
    both feet as they were; the accumulated walk rotation advances by the
    rotation between the first two footsteps divided by the step period. *)
Theorem update_joints_consumes_one_sample wm com rest wm' :
  initialized wm = true ->
  com_trajectory (lipm wm) = com :: rest ->
  update_joints wm = Done wm' ->
  lipm wm' = (lipm wm)<|com_trajectory := rest|>
  /\ foot_step_planner wm' = foot_step_planner wm
  /\ status wm' = status wm /\ next_support wm' = next_support wm
  /\ same_config wm wm' /\ same_targets wm wm'
  /\ exists step0 step1,
       nth_error (foot_steps (foot_step_planner wm)) 0 = Some step0
       /\ nth_error (foot_steps (foot_step_planner wm)) 1 = Some step1
       /\ walk_rotation wm'
          = angle_add (walk_rotation wm)
              (angle_div (angle_sub (rotation step1) (rotation step0))
                 (step_period_of wm step0 step1)).
Proof.
intros Hi Ht H.
destruct (update_joints_with_tick _ _ _ Hi H)
  as (wm0 & com' & rest' & step0 & step1 & Hwm0 & Ht0 & H0 & H1
      & Hl & Hp & Hst & Hns & _ & Hc & Htg & Hw & _).
destruct Hwm0 as [(_ & ->)|(He & _)]; [|rewrite Ht in He; discriminate].
rewrite Ht in Ht0. injection Ht0 as <- <-.
repeat (split; [assumption|]).
exists step0, step1. auto.
Qed.

(** X15.  A tick that finds the trajectory empty first calls [stop]: it is then
    the tick of the controller [stop] leaves, when that one has a sample;
    it is undefined when [stop] is (the queue is too short for it), and
    when the trajectory generator was handed the queue and produced no
    sample, the tick popping from an empty trajectory. *)
Theorem update_joints_refills_by_stop wm :
  initialized wm = true ->
  com_trajectory (lipm wm) = [] ->
  match stop wm with
  | Done wm0 =>
      match com_trajectory (lipm wm0) with
      | [] => update_joints wm = Undefined
      | _ :: _ => update_joints wm = update_joints wm0
      end
  | Thrown _ _ => False
  | Undefined => update_joints wm = Undefined
  end.
Proof.
intros Hi Ht.
assert (E : update_joints wm
            = match stop wm with
              | Done wm0 =>
                  match lipm_pop_front (lipm wm0) with
                  | Some (com, l) =>
                      let wm0 := wm0<|lipm := l|> in
                      match nth_error (foot_steps (foot_step_planner wm0)) 1,
                            nth_error (foot_steps (foot_step_planner wm0)) 0 with
                      | Some step1, Some step0 =>
                          update_joints_solve solve_inverse_kinematics
                            (update_joints_swing wm0 step0 step1) com
                      | _, _ => Undefined
                      end
                  | None => Undefined
                  end
              | Thrown what wm0 => Thrown what wm0
              | Undefined => Undefined
              end).
{ unfold update_joints, update_joints_with, get_com_trajectory.
  rewrite Hi, Ht. cbn [negb].
  destruct (stop wm) as [wm0|what wm0|]; reflexivity. }
destruct (stop wm) as [wm0|what wm0|] eqn:Hstop.
- destruct (set_goal_keeps _ _ _ _ Hstop) as (_ & _ & _ & Hi0).
  unfold lipm_pop_front in E.
  destruct (com_trajectory (lipm wm0)) as [|com rest] eqn:Ht0; [exact E|].
  rewrite E. unfold update_joints.
  rewrite (update_joints_with_step _ _ _ _ Hi0 Ht0). reflexivity.
- now apply set_goal_not_thrown in Hstop.
- exact E.
Qed.

(** X16.  With a sample in the trajectory, a tick of an initialized controller
    is undefined exactly when fewer than two footsteps are queued:
    [foot_steps[1]] is read on every tick, whatever the support label.
    Otherwise it returns; it never throws. *)
Theorem update_joints_reads_two_footsteps wm com rest :
  initialized wm = true ->
  com_trajectory (lipm wm) = com :: rest ->
  (update_joints wm = Undefined
   <-> (List.length (foot_steps (foot_step_planner wm)) < 2)%nat)
  /\ ((2 <= List.length (foot_steps (foot_step_planner wm)))%nat ->
      exists wm', update_joints wm = Done wm').
Proof.
intros Hi Ht.
destruct (foot_steps (foot_step_planner wm)) as [|step0 [|step1 steps]] eqn:E.
- unfold update_joints. rewrite (update_joints_with_step _ _ _ _ Hi Ht), E.
  cbn. split; [split; [lia|reflexivity]|lia].
- unfold update_joints. rewrite (update_joints_with_step _ _ _ _ Hi Ht), E.
  cbn. split; [split; [lia|reflexivity]|lia].
- destruct (update_joints_returns wm com rest step0 step1 Hi Ht) as (wm' & E' & _);
    try (rewrite E; reflexivity).
  rewrite E'. cbn [List.length]. split.
  + split; [discriminate|lia].
  + intros _. now exists wm'.
Qed.

(** X17.  No number of ticks changes a configured parameter, nor the number, the
    order or the identifiers of the published joints. *)
Theorem ticks_keep_parameters_and_joint_ids n : forall wm wm',
  ticks n wm = Done wm' ->
  same_config wm wm'
  /\ map get_id (get_joints wm') = map get_id (get_joints wm)
  /\ List.length (get_joints wm') = List.length (get_joints wm).
Proof.
assert (Hlen : forall wm wm',
          map get_id (get_joints wm') = map get_id (get_joints wm) ->
          List.length (get_joints wm') = List.length (get_joints wm)).
{ intros wm wm' H. rewrite <- (length_map get_id), H. apply length_map. }
assert (Hone : forall wm wm',
          update_joints wm = Done wm' ->
          same_config wm wm'
          /\ map get_id (get_joints wm') = map get_id (get_joints wm)).
{ intros wm wm' H. destruct (initialized wm) eqn:Hi.
  - destruct (update_joints_with_tick _ _ _ Hi H)
      as (wm0 & com & rest & step0 & step1 & Hwm0 & _ & _ & _
          & _ & _ & _ & _ & _ & Hc & _ & _ & Hj).
    unfold get_joints. rewrite Hj, publish_ids.
    destruct Hwm0 as [(_ & ->)|(_ & Hstop)]; [auto|].
    destruct (set_goal_keeps _ _ _ _ Hstop) as (Hc0 & _ & (_ & Hj0) & _).
    rewrite Hj0. split; [|reflexivity].
    unfold same_config in *.
    repeat match goal with H : _ /\ _ |- _ => destruct H end.
    repeat split; congruence.
  - unfold update_joints, update_joints_with in H. rewrite Hi in H.
    injection H as <-. unfold same_config. repeat split; reflexivity. }
induction n as [|n IH]; intros wm wm' H.
- injection H as <-. unfold same_config. repeat split; reflexivity.
- cbn [ticks] in H.
  destruct (update_joints wm) as [wm1| |] eqn:E; try discriminate.
  destruct (Hone _ _ E) as (Hc1 & Hj1).
  destruct (IH _ _ H) as (Hc & Hj & _).
  assert (Hids : map get_id (get_joints wm') = map get_id (get_joints wm))
    by congruence.
  split; [|split; [exact Hids|now apply Hlen]].
  unfold same_config in *.
  repeat match goal with H : _ /\ _ |- _ => destruct H end.
  repeat split; congruence.
Qed.

(** X18.  Ticks only ever drop footsteps from the front of the queue, one per
    tick at most, and never leave fewer than three of a queue that held
    three: a queue of three footsteps or less is never advanced, the same
    step being walked again each time its trajectory is used up. *)
Theorem ticks_drop_front_footsteps n : forall wm wm',
  ticks n wm = Done wm' ->
  exists dropped,
    (dropped <= n)%nat
    /\ (dropped <= List.length (foot_steps (foot_step_planner wm)) - 3)%nat
    /\ foot_steps (foot_step_planner wm')
       = skipn dropped (foot_steps (foot_step_planner wm)).
Proof.
assert (Hone : forall wm wm',
          update_joints wm = Done wm' ->
          foot_steps (foot_step_planner wm')
          = foot_steps (foot_step_planner wm)
          \/ ((3 < List.length (foot_steps (foot_step_planner wm)))%nat
              /\ foot_steps (foot_step_planner wm')
                 = tl (foot_steps (foot_step_planner wm)))).
{ intros wm wm' H. destruct (initialized wm) eqn:Hi.
  - destruct (update_joints_with_tick _ _ _ Hi H)
      as (wm0 & com & rest & step0 & step1 & Hwm0 & _ & _ & _
          & _ & Hp & _).
    rewrite Hp.
    destruct Hwm0 as [(_ & ->)|(_ & Hstop)]; [now left|].
    destruct (stop_step wm) as (_ & Hdone). cbv zeta in Hdone.
    destruct (Hdone _ Hstop) as (Hq & _). rewrite Hq.
    destruct (Nat.ltb_spec 3 (List.length (foot_steps (foot_step_planner wm))));
      [right; split; [assumption|reflexivity] | now left].
  - unfold update_joints, update_joints_with in H. rewrite Hi in H.
    injection H as <-. now left. }
induction n as [|n IH]; intros wm wm' H.
- injection H as <-. exists 0%nat. repeat split; [lia|lia].
- cbn [ticks] in H.
  destruct (update_joints wm) as [wm1| |] eqn:E; try discriminate.
  destruct (IH _ _ H) as (d & Hd1 & Hd2 & Hq).
  destruct (Hone _ _ E) as [Hsame|(Hlong & Htl)].
  + exists d. rewrite Hsame in Hd2, Hq. repeat split; [lia|assumption|assumption].
  + exists (S d). rewrite Htl in Hd2, Hq.
    destruct (foot_steps (foot_step_planner wm)) as [|a l]; [cbn in Hlong; lia|].
    cbn [tl List.length skipn] in *. repeat split; [lia|lia|assumption].
Qed.

(** X19.  The solver has no say in the walk: two ticks of the same controller
    that return, whatever solver each one called and whether it threw,
    leave the same trajectory, queue, status, support side, accumulated
    rotation, parameters, lifts, offsets, targets and deltas.  They can
    differ in the solver object and in the published joints only. *)
Theorem update_joints_walk_ignores_solver solver1 solver2 wm wm1 wm2 :
  update_joints_with solver1 wm = Done wm1 ->
  update_joints_with solver2 wm = Done wm2 ->
  lipm wm2 = lipm wm1 /\ foot_step_planner wm2 = foot_step_planner wm1
  /\ status wm2 = status wm1 /\ initialized wm2 = initialized wm1
  /\ next_support wm2 = next_support wm1
  /\ walk_rotation wm2 = walk_rotation wm1
  /\ same_config wm1 wm2 /\ same_feet wm1 wm2 /\ same_targets wm1 wm2.
Proof.
intros H1 H2. destruct (initialized wm) eqn:Hi.
- destruct (update_joints_with_stages wm Hi) as [Hu|(ws & com & Hs & _)].
  + rewrite Hu in H1. discriminate.
  + rewrite Hs in H1, H2.
    pose proof (update_joints_solve_walk_rotation _ _ _ _ H1) as W1.
    pose proof (update_joints_solve_walk_rotation _ _ _ _ H2) as W2.
    destruct (update_joints_solve_spec _ _ _ _ H1)
      as (_ & _ & C1 & F1 & T1 & L1 & P1 & S1 & I1 & N1).
    destruct (update_joints_solve_spec _ _ _ _ H2)
      as (_ & _ & C2 & F2 & T2 & L2 & P2 & S2 & I2 & N2).
    unfold same_config, same_feet, same_targets in *.
    repeat match goal with H : _ /\ _ |- _ => destruct H end.
    repeat split; congruence.
- unfold update_joints_with in H1, H2. rewrite Hi in H1, H2.
  injection H1 as <-. injection H2 as <-.
  unfold same_config, same_feet, same_targets. repeat split; reflexivity.
Qed.

End TickFacts.

Section ReachableFacts.

Context {K : Keisan} {T : Tachimawari} {I : Internals} {C : Collaborators}.

(** ** Reachable controllers *)

(** What no public member changes once the controller is constructed: the
    tick length, the two rest poses, the identifiers of the joints, and
    the entries of the solver's table outside the legs. *)
Lemma reachable_inv wm :
  reachable wm ->
  time_step wm = 0.01
  /\ initial_left_foot wm
     = {| x3 := -0.04360000000000016; y3 := 0.0495; z3 := 0.011499999999999982 |}
  /\ initial_right_foot wm
     = {| x3 := -0.04360000000000016; y3 := -0.0495; z3 := 0.011499999999999982 |}
  /\ map get_id (get_joints wm) = JointId_list
  /\ forall id, ~ In id leg_joints -> angles (kinematics wm) id = make_degree 0.
Proof.
assert (Hgoal : forall goal_position goal_orientation wm wm',
          set_goal goal_position goal_orientation wm = Done wm' ->
          time_step wm' = time_step wm
          /\ initial_left_foot wm' = initial_left_foot wm
          /\ initial_right_foot wm' = initial_right_foot wm
          /\ joints wm' = joints wm /\ kinematics wm' = kinematics wm).
{ intros g o w w' H.
  destruct (set_goal_keeps _ _ _ _ H) as (Hc & _ & (Hk & Hj) & _).
  unfold same_config in Hc. tauto. }
induction 1 as [w0 c0
               |d w kd wm wm' _ IH H
               |d w kd wm what wm' _ IH H
               |g o wm wm' _ IH H
               |wm wm' _ IH H
               |wm wm' _ IH H].
- repeat split; try reflexivity.
  + unfold get_joints, WalkingManager_new. record_simpl.
    rewrite map_map. cbn [get_id]. apply map_id.
  + intros id _. unfold WalkingManager_new, Kinematics_new, reset_angles.
    record_simpl. unfold write.
    repeat (destruct (N.eqb id _); [reflexivity|]). reflexivity.
- destruct IH as (I1 & I2 & I3 & I4 & I5).
  destruct (set_config_cases d w kd wm)
    as (wm1 & k' & Ek & E & _ & _ & G).
  destruct (Kinematics_set_config_done kd (kinematics wm)) as (k2 & Ek2 & Ha).
  rewrite Ek in Ek2. injection Ek2 as <-.
  destruct G as (_ & _ & (_ & Hj) & _ & _ & _ & _ & _ & _ & Hts & Hl & Hr).
  rewrite H in E.
  destruct (Json.walking_config_ok w); [|discriminate].
  injection E as ->. unfold get_joints in *. record_simpl.
  rewrite Hts, Hl, Hr, Hj, Ha. auto.
- destruct IH as (I1 & I2 & I3 & I4 & I5).
  destruct (set_config_cases d w kd wm)
    as (wm1 & k' & _ & E & _ & _ & G).
  destruct G as (_ & _ & (Hk & Hj) & _ & _ & _ & _ & _ & _ & Hts & Hl & Hr).
  rewrite H in E.
  destruct (Json.walking_config_ok w); [discriminate|].
  injection E as _ ->. unfold get_joints in *.
  rewrite Hts, Hl, Hr, Hj, Hk. auto.
- destruct IH as (I1 & I2 & I3 & I4 & I5).
  destruct (Hgoal _ _ _ _ H) as (E1 & E2 & E3 & E4 & E5).
  unfold get_joints in *. rewrite E1, E2, E3, E4, E5. auto.
- destruct IH as (I1 & I2 & I3 & I4 & I5).
  destruct (Hgoal _ _ _ _ H) as (E1 & E2 & E3 & E4 & E5).
  unfold get_joints in *. rewrite E1, E2, E3, E4, E5. auto.
- destruct IH as (I1 & I2 & I3 & I4 & I5).
  destruct (initialized wm) eqn:Hi.
  + destruct (update_joints_with_tick _ _ _ Hi H)
      as (wm0 & com & rest & step0 & step1 & Hwm0 & _ & _ & _
          & _ & _ & _ & _ & _ & Hc & _ & _ & Hj).
    destruct (update_joints_published _ _ Hi H) as (_ & Hframe & _).
    assert (H0 : time_step wm0 = time_step wm
                 /\ initial_left_foot wm0 = initial_left_foot wm
                 /\ initial_right_foot wm0 = initial_right_foot wm
                 /\ joints wm0 = joints wm).
    { destruct Hwm0 as [(_ & ->)|(_ & Hstop)]; [auto|].
      destruct (Hgoal _ _ _ _ Hstop) as (E1 & E2 & E3 & E4 & _). auto. }
    destruct H0 as (E1 & E2 & E3 & E4).
    unfold same_config in Hc.
    destruct Hc as (Hts & _ & _ & _ & _ & _ & _ & _ & _ & _ & _ & Hl & Hr).
    unfold get_joints in *.
    rewrite Hts, Hl, Hr, Hj, publish_ids, E1, E2, E3, E4.
    repeat split; try assumption.
    intros id Hid. rewrite (Hframe id Hid). now apply I5.
  + unfold update_joints, update_joints_with in H. rewrite Hi in H.
    injection H as <-. auto.
Qed.

(** In a reachable controller a joint outside the legs is at position 0,
    where the constructor put it, or at the position of 0 degrees, where a
    tick published it. *)
Lemma reachable_unmanaged wm :
  reachable wm ->
  forall joint,
    In joint (joints wm) ->
    ~ In (get_id joint) leg_joints ->
    get_position joint = 0 \/ get_position joint = degree (make_degree 0).
Proof.
assert (Hgoal : forall goal_position goal_orientation wm wm',
          set_goal goal_position goal_orientation wm = Done wm' ->
          joints wm' = joints wm).
{ intros g o w w' H.
  now destruct (set_goal_keeps _ _ _ _ H) as (_ & _ & (_ & Hj) & _). }
induction 1 as [w0 c0
               |d w kd wm wm' _ IH H
               |d w kd wm what wm' _ IH H
               |g o wm wm' _ IH H
               |wm wm' _ IH H
               |wm wm' Hr IH H].
- intros joint Hin _. unfold WalkingManager_new in Hin. record_simpl.
  apply in_map_iff in Hin. destruct Hin as (id & <- & _). now left.
- destruct (set_config_cases d w kd wm)
    as (wm1 & k' & _ & E & _ & _ & G).
  destruct G as (_ & _ & (_ & Hj) & _).
  rewrite H in E.
  destruct (Json.walking_config_ok w); [|discriminate].
  injection E as ->. record_simpl. now rewrite Hj.
- destruct (set_config_cases d w kd wm)
    as (wm1 & k' & _ & E & _ & _ & G).
  destruct G as (_ & _ & (_ & Hj) & _).
  rewrite H in E.
  destruct (Json.walking_config_ok w); [discriminate|].
  injection E as _ ->. now rewrite Hj.
- now rewrite (Hgoal _ _ _ _ H).
- now rewrite (Hgoal _ _ _ _ H).
- destruct (initialized wm) eqn:Hi.
  + destruct (update_joints_published _ _ Hi H) as (Hj & _ & _).
    destruct (reachable_inv wm' (reachable_update_joints _ _ Hr H))
      as (_ & _ & _ & _ & Htable).
    intros joint Hin Hid. rewrite Hj in Hin. unfold publish in Hin.
    apply in_map_iff in Hin. destruct Hin as (joint0 & <- & _).
    cbn [set_position get_id get_position] in *.
    right. now rewrite Htable.
  + unfold update_joints, update_joints_with in H. rewrite Hi in H.
    injection H as <-. exact IH.
Qed.

(** C6.  keisan's angle of 0 degrees reads 0 in degrees.  A tick of a
    reachable controller that returns then leaves every joint outside the
    legs as it was, identifier and position, at its place in the array; the
    identifiers of all the joints stay, in their order; and of the solver's
    table only the fourteen leg entries can change.  The copy loop does
    write the joints outside the legs: it writes the position they have. *)
Theorem update_joints_keeps_unmanaged_joints wm wm' :
  degree (make_degree 0) = 0 ->
  reachable wm ->
  update_joints wm = Done wm' ->
  (forall i joint,
     nth_error (get_joints wm) i = Some joint ->
     ~ In (get_id joint) leg_joints ->
     nth_error (get_joints wm') i = Some joint)
  /\ map get_id (get_joints wm') = map get_id (get_joints wm)
  /\ (forall id, ~ In id leg_joints ->
        angles (kinematics wm') id = angles (kinematics wm) id).
Proof.
intros Hlaw Hr H. unfold get_joints.
destruct (initialized wm) eqn:Hi.
- destruct (update_joints_published _ _ Hi H) as (Hj & Hframe & _).
  destruct (reachable_inv wm' (reachable_update_joints _ _ Hr H))
    as (_ & _ & _ & _ & Htable).
  split; [|split; [rewrite Hj; apply publish_ids | exact Hframe]].
  intros i joint Hn Hid.
  rewrite Hj. unfold publish. rewrite nth_error_map, Hn. cbn [option_map].
  f_equal.
  assert (Hin : In joint (joints wm)) by (eapply nth_error_In; exact Hn).
  destruct joint as [id position].
  cbn [set_position get_id get_position] in *.
  rewrite (Htable id Hid), Hlaw.
  destruct (reachable_unmanaged wm Hr _ Hin Hid) as [Hp|Hp];
    cbn [get_position] in Hp; rewrite Hp, ?Hlaw; reflexivity.
- unfold update_joints, update_joints_with in H. rewrite Hi in H.
  injection H as <-. auto.
Qed.

(** X20.  The tick length is 0.01 s in every reachable controller: no document
    and no member sets it.  The rest poses of the two feet are the
    constructor's, and the published joints are those of [JointId::list],
    one each and in that order. *)
Theorem reachable_keeps_time_step_and_joints wm :
  reachable wm ->
  time_step wm = 0.01
  /\ initial_left_foot wm
     = {| x3 := -0.04360000000000016; y3 := 0.0495; z3 := 0.011499999999999982 |}
  /\ initial_right_foot wm
     = {| x3 := -0.04360000000000016; y3 := -0.0495; z3 := 0.011499999999999982 |}
  /\ map get_id (get_joints wm) = JointId_list.
Proof.
intros H. destruct (reachable_inv wm H) as (H1 & H2 & H3 & H4 & _). auto.
Qed.

(** X21.  Every tick of a reachable, initialized controller publishes each joint
    outside the legs at the position of 0 degrees: the table entry of such
    a joint is never written after the constructor's reset. *)
Theorem reachable_publishes_zero_outside_legs wm wm' joint :
  reachable wm ->
  initialized wm = true ->
  update_joints wm = Done wm' ->
  In joint (get_joints wm') ->
  ~ In (get_id joint) leg_joints ->
  get_position joint = degree (make_degree 0).
Proof.
intros Hr Hi H Hin Hid.
destruct (reachable_inv wm' (reachable_update_joints _ _ Hr H))
  as (_ & _ & _ & _ & Htable).
destruct (update_joints_published _ _ Hi H) as (Hj & _ & _).
unfold get_joints in Hin. rewrite Hj in Hin. unfold publish in Hin.
apply in_map_iff in Hin. destruct Hin as (joint0 & <- & _).
cbn [set_position get_id get_position] in *.
now rewrite Htable.
Qed.

End ReachableFacts.

(** * Runs of the executable instance *)

Import Sim.

Ltac run :=
  repeat match goal with |- _ /\ _ => split end; vm_compute; reflexivity.

Lemma done_state_of {S : Type} (o : outcome S) (d : S) :
  is_done o = true -> o = Done (state_of o d).
Proof.
destruct o; cbn; intros H; first [reflexivity | discriminate H].
Defined.

Lemma first_tick_state_of (wm : WalkingManager) :
  is_done (update_joints wm) = true ->
  update_joints wm = Done (state_of (ticks 1 wm) wm).
Proof.
cbn [ticks]. destruct (update_joints wm); cbn; intros H;
  first [reflexivity | discriminate H].
Defined.

Lemma first_tick_with_solver (wm : WalkingManager) :
  is_done (update_joints wm) = true ->
  update_joints_with solve_inverse_kinematics wm
  = Done (state_of (ticks 1 wm) wm).
Proof. exact (first_tick_state_of wm). Defined.

Lemma set_goal_queue (goal_position : Point2) (goal_orientation : Angle)
  (wm wm' : WalkingManager) :
  set_goal goal_position goal_orientation wm = Done wm' ->
  foot_step_planner (set_goal_plan goal_position goal_orientation wm)
  = foot_step_planner wm'.
Proof.
unfold set_goal. intros H. symmetry. apply (set_goal_target_keeps _ _ H).
Defined.

Lemma planned_nth (i : nat) (wm : WalkingManager) :
  (i < List.length (foot_steps (foot_step_planner wm)))%nat ->
  nth_error (foot_steps (foot_step_planner wm)) i = Some (planned i wm).
Proof.
intros H. unfold planned. now apply nth_error_nth'.
Defined.





(** C4: a stop request on a queue of four footsteps returns, resets the
    status and pops the front footstep. *)
Lemma set_goal_stop_request_witness :
  is_stop_request stop_position = true
  /\ List.length (foot_steps (foot_step_planner four_steps)) = 4%nat
  /\ exists wm',
       set_goal stop_position (make_degree 0) four_steps = Done wm'
       /\ status wm' = START
       /\ foot_steps (foot_step_planner wm')
          = tl (foot_steps (foot_step_planner four_steps)).
Proof.
assert (H1 : is_stop_request stop_position = true) by reflexivity.
assert (H2 : List.length (foot_steps (foot_step_planner four_steps)) = 4%nat)
  by (vm_compute; reflexivity).
split; [exact H1|]. split; [exact H2|].
destruct (set_goal_stop_request stop_position (make_degree 0) four_steps H1)
  as (Hret & Hdone).
cbv zeta in Hret, Hdone. rewrite H2 in Hret, Hdone.
destruct (Hret ltac:(lia)) as [wm' E].
destruct (Hdone wm' E) as (Hstart & _ & Hpop & _).
exists wm'. split; [exact E|]. split.
- apply Hstart. lia.
- apply Hpop. lia.
Defined.




(** C7 as stated fails: the posture group is missing, [set_config] throws,
    and [dsp_duration], 0 in the controller before the call, is 0.02 in the
    controller the throw leaves. *)
Lemma set_config_partially_applied :
  Json.walking_config_ok no_posture_json = false
  /\ dsp_duration fresh = 0
  /\ match set_config 0 no_posture_json kinematic_json fresh with
     | Thrown _ wm' => dsp_duration wm' = 0.02
     | _ => False
     end.
Proof. run. Qed.

(** C7: the theorem at the same document, whose stride group is in
    order. *)
Lemma set_config_invalid_applies_fields_witness :
  Json.walking_config_ok no_posture_json = false
  /\ exists what wm',
       set_config 0 no_posture_json kinematic_json fresh = Thrown what wm'
       /\ step_frames wm'
          = Json.configured no_posture_json "timing" "step_frames"
              (step_frames fresh)
       /\ foot_height wm' = foot_height fresh
       /\ max_rotation wm' = make_degree 10
       /\ kinematics wm' = kinematics fresh.
Proof.
assert (H1 : Json.walking_config_ok no_posture_json = false) by reflexivity.
split; [exact H1|].
destruct (set_config_invalid_applies_fields 0 no_posture_json kinematic_json
            fresh H1)
  as (what & wm' & E & _ & _ & _ & Hsf & _ & Hfh & _ & _ & _ & _ & Hrot & _ & _
      & Hk).
exists what, wm'. split; [exact E|]. split; [exact Hsf|].
split; [rewrite Hfh; reflexivity|]. split; [|exact Hk].
rewrite Hrot. vm_compute. reflexivity.
Defined.

(** C9: the theorem at the goal set above: the first queued footstep is
    the left support, the second is labelled RIGHT, and the right foot's
    target is the second footstep's pose shifted by [+ foot_y_offset]. *)
Lemma set_goal_swing_target_witness :
  nth_error
    (foot_steps
       (foot_step_planner
          (set_goal_plan goal (make_degree 0) (configured_from walking_json)))) 0
  = Some (planned 0 (walking walking_json))
  /\ support_foot (planned 0 (walking walking_json)) = LEFT_FOOT
  /\ nth_error
       (foot_steps
          (foot_step_planner
             (set_goal_plan goal (make_degree 0) (configured_from walking_json)))) 1
     = Some (planned 1 (walking walking_json))
  /\ exists wm',
       set_goal goal (make_degree 0) (configured_from walking_json) = Done wm'
       /\ m0 (right_foot_target wm') == 0.1
       /\ m1 (right_foot_target wm') == 0.05
       /\ left_foot_target wm' = left_foot_target (configured_from walking_json).
Proof.
assert (Hg : set_goal goal (make_degree 0) (configured_from walking_json)
             = Done (walking walking_json))
  by (apply done_state_of; vm_compute; reflexivity).
assert (Hq : foot_step_planner
               (set_goal_plan goal (make_degree 0) (configured_from walking_json))
             = foot_step_planner (walking walking_json))
  by exact (set_goal_queue _ _ _ _ Hg).
assert (H0 : nth_error
               (foot_steps
                  (foot_step_planner
                     (set_goal_plan goal (make_degree 0)
                        (configured_from walking_json)))) 0
             = Some (planned 0 (walking walking_json)))
  by (rewrite Hq; apply planned_nth; vm_compute; lia).
assert (Hs : support_foot (planned 0 (walking walking_json)) = LEFT_FOOT)
  by (vm_compute; reflexivity).
assert (H1 : nth_error
               (foot_steps
                  (foot_step_planner
                     (set_goal_plan goal (make_degree 0)
                        (configured_from walking_json)))) 1
             = Some (planned 1 (walking walking_json)))
  by (rewrite Hq; apply planned_nth; vm_compute; lia).
split; [exact H0|]. split; [exact Hs|]. split; [exact H1|].
pose proof (set_goal_swing_target goal (make_degree 0)
              (configured_from walking_json)
              (planned 0 (walking walking_json)) H0) as H.
rewrite Hs in H.
destruct (H (planned 1 (walking walking_json)) H1) as (wm' & E & Ht & _ & Hl & _).
exists wm'. split; [exact E|].
rewrite Ht, Hl.
split; [vm_compute; reflexivity|]. split; [vm_compute; reflexivity|].
reflexivity.
Defined.

(** C10 as stated fails: the queue holds one footstep, labelled BOTH, and
    the stop request returns. *)
Lemma stop_returns_on_one_footstep :
  List.length (foot_steps (foot_step_planner standing)) = 1%nat
  /\ is_stop_request stop_position = true
  /\ is_done (set_goal stop_position (make_degree 0) standing) = true.
Proof. run. Qed.



(** C8 at an empty document: no group is in order, and the call returns,
    the lengths left at 0. *)
Lemma Kinematics_set_config_accepts_empty_document :
  Json.kinematic_config_ok (JObject []) = false
  /\ match Kinematics_set_config (JObject []) Kinematics_new with
     | Done k => thigh_length k = 0
     | _ => False
     end.
Proof. run. Qed.

(** ** The further properties at concrete inputs *)

(** The numbering of the instance tells the leg joints apart. *)
Lemma leg_joints_distinct : NoDup leg_joints.
Proof.
unfold leg_joints.
repeat (constructor; [cbn; intuition discriminate|]). constructor.
Defined.

Lemma solved_returns :
  solve_inverse_kinematics solver_object first_left first_right = Done solved.
Proof. apply done_state_of. vm_compute. reflexivity. Defined.

Lemma configured_returns :
  set_config 0 walking_json kinematic_json fresh
  = Done (configured_from walking_json).
Proof. apply done_state_of. vm_compute. reflexivity. Defined.

Lemma walking_returns :
  set_goal goal (make_degree 0) (configured_from walking_json)
  = Done (walking walking_json).
Proof. apply done_state_of. vm_compute. reflexivity. Defined.

Lemma walking_reachable : reachable (walking walking_json).
Proof.
apply (reachable_set_goal goal (make_degree 0) (configured_from walking_json));
  [|exact walking_returns].
apply (reachable_set_config 0 walking_json kinematic_json fresh);
  [|exact configured_returns].
exact (reachable_new (make_degree 0) 0).
Defined.

Lemma walking_first_tick : update_joints (walking walking_json) = Done ticked.
Proof. apply first_tick_state_of. vm_compute. reflexivity. Defined.

Lemma walking_trajectory :
  com_trajectory (lipm (walking walking_json)) = origin :: repeat origin 39.
Proof. vm_compute. reflexivity. Defined.

(** The coupling of the joints at the targets of the first tick. *)
Lemma solve_inverse_kinematics_couples_joints_witness :
  NoDup leg_joints
  /\ solve_inverse_kinematics solver_object first_left first_right = Done solved
  /\ angles solved LEFT_HIP_PITCH = angle_neg (angles solved LEFT_UPPER_KNEE)
  /\ angles solved RIGHT_ANKLE_ROLL = angle_neg (angles solved RIGHT_HIP_ROLL)
  /\ angles solved LEFT_ANKLE_PITCH = make_degree 0.
Proof.
split; [exact leg_joints_distinct|]. split; [exact solved_returns|].
destruct (solve_inverse_kinematics_couples_joints solver_object first_left
            first_right solved leg_joints_distinct solved_returns)
  as (_ & _ & H1 & _ & _ & H2 & H3 & _).
split; [exact H1|]. split; [exact H2|exact H3].
Defined.

(** The solver object after a solve and the one before it have the same
    geometry and not the same table: solved for the raised targets, they
    agree on the leg entries. *)
Lemma solve_inverse_kinematics_forgets_table_witness :
  (ankle_length solved = ankle_length solver_object
   /\ calf_length solved = calf_length solver_object
   /\ knee_length solved = knee_length solver_object
   /\ thigh_length solved = thigh_length solver_object
   /\ x_offset solved = x_offset solver_object
   /\ y_offset solved = y_offset solver_object)
  /\ solve_inverse_kinematics solved (raised first_left) (raised first_right)
     = Done (state_of
               (solve_inverse_kinematics solved (raised first_left)
                  (raised first_right)) solved)
  /\ exists k2',
       solve_inverse_kinematics solver_object (raised first_left)
         (raised first_right) = Done k2'
       /\ forall id,
            In id leg_joints ->
            angles k2' id
            = angles
                (state_of
                   (solve_inverse_kinematics solved (raised first_left)
                      (raised first_right)) solved) id.
Proof.
assert (Ha : ankle_length solved = ankle_length solver_object)
  by (vm_compute; reflexivity).
assert (Hc : calf_length solved = calf_length solver_object)
  by (vm_compute; reflexivity).
assert (Hn : knee_length solved = knee_length solver_object)
  by (vm_compute; reflexivity).
assert (Ht : thigh_length solved = thigh_length solver_object)
  by (vm_compute; reflexivity).
assert (Hx : x_offset solved = x_offset solver_object)
  by (vm_compute; reflexivity).
assert (Hy : y_offset solved = y_offset solver_object)
  by (vm_compute; reflexivity).
assert (H : solve_inverse_kinematics solved (raised first_left) (raised first_right)
            = Done (state_of
                      (solve_inverse_kinematics solved (raised first_left)
                         (raised first_right)) solved))
  by (apply done_state_of; vm_compute; reflexivity).
split; [auto 6|]. split; [exact H|].
exact (proj1 (proj2 (solve_inverse_kinematics_forgets_table solved solver_object
                       (raised first_left) (raised first_right) _
                       Ha Hc Hn Ht Hx Hy H))).
Defined.

(** The left leg for the first targets, whether the right target is raised
    or not; the right leg, whether the left target is. *)
Lemma solve_inverse_kinematics_legs_apart_witness :
  NoDup leg_joints
  /\ solve_inverse_kinematics solver_object first_left first_right = Done solved
  /\ solve_inverse_kinematics solver_object first_left (raised first_right)
     = Done (state_of
               (solve_inverse_kinematics solver_object first_left
                  (raised first_right)) solver_object)
  /\ solve_inverse_kinematics solver_object (raised first_left) first_right
     = Done (state_of
               (solve_inverse_kinematics solver_object (raised first_left)
                  first_right) solver_object)
  /\ angles
       (state_of
          (solve_inverse_kinematics solver_object first_left (raised first_right))
          solver_object) LEFT_LOWER_KNEE
     = angles solved LEFT_LOWER_KNEE
  /\ angles
       (state_of
          (solve_inverse_kinematics solver_object (raised first_left) first_right)
          solver_object) RIGHT_HIP_ROLL
     = angles solved RIGHT_HIP_ROLL.
Proof.
assert (H2 : solve_inverse_kinematics solver_object first_left (raised first_right)
             = Done (state_of
                       (solve_inverse_kinematics solver_object first_left
                          (raised first_right)) solver_object))
  by (apply done_state_of; vm_compute; reflexivity).
assert (H3 : solve_inverse_kinematics solver_object (raised first_left) first_right
             = Done (state_of
                       (solve_inverse_kinematics solver_object (raised first_left)
                          first_right) solver_object))
  by (apply done_state_of; vm_compute; reflexivity).
split; [exact leg_joints_distinct|]. split; [exact solved_returns|].
split; [exact H2|]. split; [exact H3|].
destruct (solve_inverse_kinematics_legs_apart solver_object first_left first_right
            (raised first_left) (raised first_right) _ _ _
            leg_joints_distinct solved_returns H2 H3) as (Hl & Hr).
split.
- apply Hl. cbn [In]. tauto.
- apply Hr. cbn [In]. tauto.
Defined.

(** The walking document of the instance is in order: 20 frames per step
    are stored. *)
Lemma set_config_applies_document_witness :
  Json.walking_config_ok walking_json = true
  /\ exists wm',
       set_config 0 walking_json kinematic_json fresh = Done wm'
       /\ step_frames wm' = 20.
Proof.
assert (H : Json.walking_config_ok walking_json = true) by reflexivity.
split; [exact H|].
destruct (set_config_applies_document 0 walking_json kinematic_json fresh H)
  as (wm' & k' & E & F & _).
exists wm'. split; [exact E|].
destruct (F 0) as (_ & _ & _ & -> & _). vm_compute. reflexivity.
Defined.

(** The stride group without [max_a]: the local is read as it was passed,
    here 7. *)
Lemma set_config_stride_without_max_a_witness :
  Json.section_of no_max_a_json "stride" = Some bare_stride
  /\ Json.has_number bare_stride "max_a" = false
  /\ exists what wm',
       set_config 7 no_max_a_json kinematic_json fresh = Thrown what wm'
       /\ max_rotation wm' = make_degree 7.
Proof.
assert (H1 : Json.section_of no_max_a_json "stride" = Some bare_stride)
  by reflexivity.
assert (H2 : Json.has_number bare_stride "max_a" = false) by reflexivity.
split; [exact H1|]. split; [exact H2|].
exact (set_config_stride_without_max_a 7 no_max_a_json kinematic_json fresh
         bare_stride H1 H2).
Defined.

(** The goal of the instance is not the stop request. *)
Lemma set_goal_plans_from_second_footstep_witness :
  is_stop_request goal = false
  /\ set_goal goal (make_degree 0) (configured_from walking_json)
     = Done (walking walking_json)
  /\ status (walking walking_json) = WALKING
  /\ initialized (walking walking_json) = true.
Proof.
assert (H : is_stop_request goal = false) by reflexivity.
split; [exact H|]. split; [exact walking_returns|].
destruct (set_goal_plans_from_second_footstep goal (make_degree 0)
            (configured_from walking_json) (walking walking_json) H
            walking_returns) as (H1 & H2 & _).
split; [exact H1|exact H2].
Defined.

Lemma set_goal_regenerates_trajectory_witness :
  set_goal goal (make_degree 0) (configured_from walking_json)
  = Done (walking walking_json)
  /\ exists step0,
       nth_error (foot_steps (foot_step_planner (walking walking_json))) 0
       = Some step0
       /\ lipm (walking walking_json)
          = lipm_update (lipm (configured_from walking_json)) (time step0)
              (foot_steps (foot_step_planner (walking walking_json)))
       /\ walk_rotation (walking walking_json) = rotation step0.
Proof.
split; [exact walking_returns|].
exact (set_goal_regenerates_trajectory goal (make_degree 0)
         (configured_from walking_json) (walking walking_json) walking_returns).
Defined.

(** Two stop requests on a queue of four footsteps: one footstep is
    dropped, three stay, the status is START. *)
Lemma stops_drain_queue_witness :
  List.length (foot_steps (foot_step_planner four_steps)) = 4%nat
  /\ exists wm',
       stops 2 four_steps = Done wm'
       /\ foot_steps (foot_step_planner wm')
          = skipn 1 (foot_steps (foot_step_planner four_steps))
       /\ status wm' = START.
Proof.
assert (H4 : List.length (foot_steps (foot_step_planner four_steps)) = 4%nat)
  by (vm_compute; reflexivity).
split; [exact H4|].
destruct (stops_drain_queue 2 four_steps) as (Hret & Hdone).
cbv zeta in Hret, Hdone. rewrite H4 in Hret, Hdone.
destruct (Hret ltac:(lia)) as [wm' E].
destruct (Hdone wm' E) as (Hq & Hstart & _).
exists wm'. split; [exact E|]. split; [exact Hq|].
apply Hstart; lia.
Defined.

(** Three ticks of the controller just constructed. *)
Lemma ticks_before_first_goal_witness :
  initialized fresh = false /\ ticks 3 fresh = Done fresh.
Proof.
assert (H : initialized fresh = false) by reflexivity.
split; [exact H|]. exact (ticks_before_first_goal 3 fresh H).
Defined.

(** The first tick of the walking controller takes the first of its 40
    samples. *)
Lemma update_joints_consumes_one_sample_witness :
  initialized (walking walking_json) = true
  /\ com_trajectory (lipm (walking walking_json)) = origin :: repeat origin 39
  /\ update_joints (walking walking_json) = Done ticked
  /\ lipm ticked
     = (lipm (walking walking_json))<|com_trajectory := repeat origin 39|>
  /\ foot_step_planner ticked = foot_step_planner (walking walking_json).
Proof.
assert (H1 : initialized (walking walking_json) = true)
  by (vm_compute; reflexivity).
split; [exact H1|]. split; [exact walking_trajectory|].
split; [exact walking_first_tick|].
destruct (update_joints_consumes_one_sample (walking walking_json) origin
            (repeat origin 39) ticked H1 walking_trajectory walking_first_tick)
  as (Hl & Hp & _).
split; [exact Hl|exact Hp].
Defined.

(** The walking controller with its trajectory used up: [stop] refills it,
    and the tick is the tick of the controller [stop] leaves. *)
Lemma update_joints_refills_by_stop_witness :
  initialized drained = true
  /\ com_trajectory (lipm drained) = []
  /\ stop drained = Done (state_of (stop drained) drained)
  /\ update_joints drained = update_joints (state_of (stop drained) drained).
Proof.
assert (H1 : initialized drained = true) by (vm_compute; reflexivity).
assert (H2 : com_trajectory (lipm drained) = []) by (vm_compute; reflexivity).
assert (Hs : stop drained = Done (state_of (stop drained) drained))
  by (apply done_state_of; vm_compute; reflexivity).
assert (Ht : com_trajectory (lipm (state_of (stop drained) drained))
             = origin :: repeat origin 39)
  by (vm_compute; reflexivity).
split; [exact H1|]. split; [exact H2|]. split; [exact Hs|].
pose proof (update_joints_refills_by_stop drained H1 H2) as H.
rewrite Hs in H. rewrite Ht in H. exact H.
Defined.

Lemma update_joints_reads_two_footsteps_witness :
  initialized (walking walking_json) = true
  /\ com_trajectory (lipm (walking walking_json)) = origin :: repeat origin 39
  /\ (update_joints (walking walking_json) = Undefined
      <-> (List.length (foot_steps (foot_step_planner (walking walking_json)))
           < 2)%nat)
  /\ ((2 <= List.length (foot_steps (foot_step_planner (walking walking_json))))%nat ->
      exists wm', update_joints (walking walking_json) = Done wm').
Proof.
assert (H1 : initialized (walking walking_json) = true)
  by (vm_compute; reflexivity).
split; [exact H1|]. split; [exact walking_trajectory|].
exact (update_joints_reads_two_footsteps (walking walking_json) origin
         (repeat origin 39) H1 walking_trajectory).
Defined.

Lemma ticks_keep_parameters_and_joint_ids_witness :
  ticks 2 (walking walking_json) = Done (after_ticks 2 walking_json)
  /\ same_config (walking walking_json) (after_ticks 2 walking_json)
  /\ map get_id (get_joints (after_ticks 2 walking_json))
     = map get_id (get_joints (walking walking_json)).
Proof.
assert (H : ticks 2 (walking walking_json) = Done (after_ticks 2 walking_json))
  by (apply done_state_of; vm_compute; reflexivity).
split; [exact H|].
destruct (ticks_keep_parameters_and_joint_ids 2 (walking walking_json)
            (after_ticks 2 walking_json) H) as (Hc & Hj & _).
split; [exact Hc|exact Hj].
Defined.

Lemma ticks_drop_front_footsteps_witness :
  ticks 2 (walking walking_json) = Done (after_ticks 2 walking_json)
  /\ exists dropped,
       (dropped <= 2)%nat
       /\ (dropped
           <= List.length (foot_steps (foot_step_planner (walking walking_json)))
              - 3)%nat
       /\ foot_steps (foot_step_planner (after_ticks 2 walking_json))
          = skipn dropped (foot_steps (foot_step_planner (walking walking_json))).
Proof.
assert (H : ticks 2 (walking walking_json) = Done (after_ticks 2 walking_json))
  by (apply done_state_of; vm_compute; reflexivity).
split; [exact H|].
exact (ticks_drop_front_footsteps 2 (walking walking_json)
         (after_ticks 2 walking_json) H).
Defined.

(** The first tick with the solver of the sources and with the solver that
    throws. *)
Lemma update_joints_walk_ignores_solver_witness :
  update_joints_with solve_inverse_kinematics (walking walking_json) = Done ticked
  /\ update_joints_with faulty_solver (walking walking_json)
     = Done (state_of (update_joints_with faulty_solver (walking walking_json))
               (walking walking_json))
  /\ lipm (state_of (update_joints_with faulty_solver (walking walking_json))
             (walking walking_json))
     = lipm ticked
  /\ same_feet ticked
       (state_of (update_joints_with faulty_solver (walking walking_json))
          (walking walking_json)).
Proof.
assert (H1 : update_joints_with solve_inverse_kinematics (walking walking_json)
             = Done ticked)
  by (apply first_tick_with_solver; vm_compute; reflexivity).
assert (H2 : update_joints_with faulty_solver (walking walking_json)
             = Done (state_of
                       (update_joints_with faulty_solver (walking walking_json))
                       (walking walking_json)))
  by (apply done_state_of; vm_compute; reflexivity).
split; [exact H1|]. split; [exact H2|].
destruct (update_joints_walk_ignores_solver solve_inverse_kinematics faulty_solver
            (walking walking_json) _ _ H1 H2)
  as (Hl & _ & _ & _ & _ & _ & _ & Hf & _).
split; [exact Hl|exact Hf].
Defined.

Lemma reachable_keeps_time_step_and_joints_witness :
  reachable (walking walking_json)
  /\ time_step (walking walking_json) = 0.01
  /\ map get_id (get_joints (walking walking_json)) = JointId_list.
Proof.
split; [exact walking_reachable|].
destruct (reachable_keeps_time_step_and_joints (walking walking_json)
            walking_reachable) as (H1 & _ & _ & H2).
split; [exact H1|exact H2].
Defined.

(** NECK_YAW after the first tick of the walking controller. *)
Lemma reachable_publishes_zero_outside_legs_witness :
  reachable (walking walking_json)
  /\ initialized (walking walking_json) = true
  /\ update_joints (walking walking_json) = Done ticked
  /\ In head_joint (get_joints ticked)
  /\ ~ In (get_id head_joint) leg_joints
  /\ get_position head_joint = degree (make_degree 0).
Proof.
assert (H1 : initialized (walking walking_json) = true)
  by (vm_compute; reflexivity).
assert (H2 : In head_joint (get_joints ticked)).
{ vm_compute. repeat first [left; reflexivity | right]. }
assert (H3 : ~ In (get_id head_joint) leg_joints)
  by (cbn; intuition discriminate).
split; [exact walking_reachable|]. split; [exact H1|].
split; [exact walking_first_tick|]. split; [exact H2|]. split; [exact H3|].
exact (reachable_publishes_zero_outside_legs (walking walking_json) ticked
         head_joint walking_reachable H1 walking_first_tick H2 H3).
Defined.

(** C6: the theorem at the first tick of the walking controller, for the
    NECK_YAW joint, fifteenth of the array. *)
Lemma update_joints_keeps_unmanaged_joints_witness :
  degree (make_degree 0) = 0
  /\ reachable (walking walking_json)
  /\ update_joints (walking walking_json) = Done ticked
  /\ nth_error (get_joints (walking walking_json)) 14 = Some head_joint
  /\ ~ In (get_id head_joint) leg_joints
  /\ nth_error (get_joints ticked) 14 = Some head_joint.
Proof.
assert (H0 : degree (make_degree 0) = 0) by reflexivity.
assert (H1 : nth_error (get_joints (walking walking_json)) 14 = Some head_joint)
  by (vm_compute; reflexivity).
assert (H2 : ~ In (get_id head_joint) leg_joints)
  by (cbn; intuition discriminate).
split; [exact H0|]. split; [exact walking_reachable|].
split; [exact walking_first_tick|]. split; [exact H1|]. split; [exact H2|].
exact (proj1 (update_joints_keeps_unmanaged_joints (walking walking_json) ticked
                H0 walking_reachable walking_first_tick) 14%nat head_joint H1 H2).
Defined.
